(** * Order workflow of the jewelry order tracker

    A shallow embedding of [order/serializers.py] and [order/views.py]:
    the Django tables are lists of rows kept in primary-key order, a
    request body and the serializer's [validated_data] are finite maps
    from field names to values, and every view is a function from the
    database (and the request) to a response and the database after it. *)

From Stdlib Require Import ZArith String Ascii List Bool Lia.
From stdpp Require Import gmap strings list.

Open Scope string_scope.
Open Scope Z_scope.

(** ** Python built-ins used by the serializer *)

Module Py.

(** [str.isspace] on the ASCII range: tab, LF, VT, FF, CR, the four
    separators FS..US and the blank. *)
Definition is_space (c : ascii) : bool :=
  let n := Z.of_nat (nat_of_ascii c) in
  ((9 <=? n) && (n <=? 13)) || ((28 <=? n) && (n <=? 32)).

Definition is_digit (c : ascii) : bool :=
  let n := Z.of_nat (nat_of_ascii c) in (48 <=? n) && (n <=? 57).

Definition digit_val (c : ascii) : Z := Z.of_nat (nat_of_ascii c) - 48.

Definition digit_char (d : Z) : ascii := ascii_of_nat (Z.to_nat (48 + d)).

Fixpoint lstrip (s : string) : string :=
  match s with
  | String c s' => if is_space c then lstrip s' else s
  | EmptyString => EmptyString
  end.

Fixpoint rstrip (s : string) : string :=
  match s with
  | String c s' =>
      match rstrip s' with
      | EmptyString => if is_space c then EmptyString else String c EmptyString
      | r => String c r
      end
  | EmptyString => EmptyString
  end.

Definition strip (s : string) : string := rstrip (lstrip s).

(** The digits of an integer literal: decimal digits, with single
    underscores allowed between two digits only.  [seen] tells whether
    the previous character was a digit. *)
Fixpoint int_digits (s : string) (acc : Z) (seen : bool) : option Z :=
  match s with
  | EmptyString => if seen then Some acc else None
  | String c s' =>
      if is_digit c then int_digits s' (10 * acc + digit_val c) true
      else if Ascii.eqb c "_"%char
           then (if seen then int_digits s' acc false else None)
           else None
  end.

(** [int(s)] for a [str] argument in base ten; [None] is [ValueError].
    Surrounding white space is dropped, one sign is accepted.  Only
    the ASCII range is interpreted: any other character is a parse
    failure. *)
Definition int (s : string) : option Z :=
  match strip s with
  | String c r =>
      if Ascii.eqb c "-"%char then Z.opp <$> int_digits r 0 false
      else if Ascii.eqb c "+"%char then int_digits r 0 false
      else int_digits (String c r) 0 false
  | EmptyString => None
  end.

Fixpoint all_chars (p : ascii -> bool) (s : string) : bool :=
  match s with
  | String c s' => p c && all_chars p s'
  | EmptyString => true
  end.

(** Decimal digits of a non-negative integer, most significant first.
    The fuel is the number of binary digits, which bounds the number
    of decimal ones. *)
Fixpoint digits_aux (fuel : nat) (n : Z) (acc : string) : string :=
  match fuel with
  | O => acc
  | S f =>
      let acc' := String (digit_char (n mod 10)) acc in
      if n <? 10 then acc' else digits_aux f (n / 10) acc'
  end.

Definition digits (n : Z) : string :=
  digits_aux (S (Z.to_nat (Z.log2 n))) n EmptyString.

(** [f"{n:02d}"]: at least two characters, zero filled; the sign of a
    negative number counts for the width. *)
Definition format_02d (n : Z) : string :=
  if n <? 0 then String "-"%char (digits (- n))
  else if n <? 10 then String "0"%char (digits n)
  else digits n.

End Py.


(** ** Rows, request values and the database *)

(** A JSON-like value of a request body, and of [validated_data] once
    the fields have been converted: [VDate] is a parsed date (days of
    the proleptic calendar), [VRef] a resolved foreign key. *)
Inductive Value : Type :=
| VNull
| VStr (s : string)
| VInt (n : Z)
| VDate (d : Z)
| VRef (pk : Z).

Module BusinessPartner.
Record t : Type := mk {
  id : Z;
  bp_code : string;
  business_name : string;
  full_name : string;
  role : string
}.
End BusinessPartner.

Module User.
Record t : Type := mk {
  id : Z;
  username : string;
  role_name : string
}.
End User.

Module Order.
(** The columns the serializers and views read or write; [details]
    holds the descriptive columns, which no transition inspects. *)
Record t : Type := mk {
  id : Z;
  order_no : string;
  status : string;
  bp_code : option Z;
  craftsman : option Z;
  rejected_by : option Z;
  due_date : option Z;
  order_date : option Z;
  key_user_approval_notes : Value;
  approved_by_key_user : option Z;
  admin_approval_notes : Value;
  verified_by_admin : option Z;
  admin_rejection_notes : Value;
  rejected_by_admin : option Z;
  details : gmap string Value
}.

Definition with_status (s : string) (o : t) : t :=
  mk (id o) (order_no o) s (bp_code o) (craftsman o) (rejected_by o)
     (due_date o) (order_date o) (key_user_approval_notes o)
     (approved_by_key_user o) (admin_approval_notes o) (verified_by_admin o)
     (admin_rejection_notes o) (rejected_by_admin o) (details o).

Definition with_craftsman (c : option Z) (o : t) : t :=
  mk (id o) (order_no o) (status o) (bp_code o) c (rejected_by o)
     (due_date o) (order_date o) (key_user_approval_notes o)
     (approved_by_key_user o) (admin_approval_notes o) (verified_by_admin o)
     (admin_rejection_notes o) (rejected_by_admin o) (details o).

Definition with_rejected_by (c : option Z) (o : t) : t :=
  mk (id o) (order_no o) (status o) (bp_code o) (craftsman o) c
     (due_date o) (order_date o) (key_user_approval_notes o)
     (approved_by_key_user o) (admin_approval_notes o) (verified_by_admin o)
     (admin_rejection_notes o) (rejected_by_admin o) (details o).

Definition with_due_date (d : option Z) (o : t) : t :=
  mk (id o) (order_no o) (status o) (bp_code o) (craftsman o) (rejected_by o)
     d (order_date o) (key_user_approval_notes o)
     (approved_by_key_user o) (admin_approval_notes o) (verified_by_admin o)
     (admin_rejection_notes o) (rejected_by_admin o) (details o).

Definition with_order_date (d : option Z) (o : t) : t :=
  mk (id o) (order_no o) (status o) (bp_code o) (craftsman o) (rejected_by o)
     (due_date o) d (key_user_approval_notes o)
     (approved_by_key_user o) (admin_approval_notes o) (verified_by_admin o)
     (admin_rejection_notes o) (rejected_by_admin o) (details o).

Definition with_bp_code (b : option Z) (o : t) : t :=
  mk (id o) (order_no o) (status o) b (craftsman o) (rejected_by o)
     (due_date o) (order_date o) (key_user_approval_notes o)
     (approved_by_key_user o) (admin_approval_notes o) (verified_by_admin o)
     (admin_rejection_notes o) (rejected_by_admin o) (details o).

Definition with_details (m : gmap string Value) (o : t) : t :=
  mk (id o) (order_no o) (status o) (bp_code o) (craftsman o) (rejected_by o)
     (due_date o) (order_date o) (key_user_approval_notes o)
     (approved_by_key_user o) (admin_approval_notes o) (verified_by_admin o)
     (admin_rejection_notes o) (rejected_by_admin o) m.

Definition with_key_user_approval (notes : Value) (u : option Z) (o : t) : t :=
  mk (id o) (order_no o) (status o) (bp_code o) (craftsman o) (rejected_by o)
     (due_date o) (order_date o) notes u
     (admin_approval_notes o) (verified_by_admin o)
     (admin_rejection_notes o) (rejected_by_admin o) (details o).

Definition with_admin_approval (notes : Value) (u : option Z) (o : t) : t :=
  mk (id o) (order_no o) (status o) (bp_code o) (craftsman o) (rejected_by o)
     (due_date o) (order_date o) (key_user_approval_notes o)
     (approved_by_key_user o) notes u
     (admin_rejection_notes o) (rejected_by_admin o) (details o).

Definition with_admin_rejection (notes : Value) (u : option Z) (o : t) : t :=
  mk (id o) (order_no o) (status o) (bp_code o) (craftsman o) (rejected_by o)
     (due_date o) (order_date o) (key_user_approval_notes o)
     (approved_by_key_user o) (admin_approval_notes o) (verified_by_admin o)
     notes u (details o).
End Order.

(** The two tables.  Rows are kept in primary-key order, which is the
    order of [order_by('id')] and of an unordered [first()]; [order_seq]
    is the last primary key handed out for an order. *)
Record DB : Type := mkDB {
  orders : list Order.t;
  partners : list BusinessPartner.t;
  order_seq : Z
}.

(** What [models.py] declares and the database engine decides, neither
    of which the two source files fix:
    - [not_in_null_unknown]: a NULL among the values of a [NOT IN]
      sub-query makes the test unknown for every row (SQL three-valued
      logic); when [false] a NULL simply equals no key;
    - [order_bp_code_null]: the [bp_code] column of an order accepts NULL;
    - [order_date_auto]: the model itself stamps [order_date] on insert. *)
Record Deployment : Type := mkDeployment {
  not_in_null_unknown : bool;
  order_bp_code_null : bool;
  order_date_auto : bool
}.

Record Response : Type := mkResponse {
  code : Z;
  body : list (string * Value)
}.

Definition HTTP_200_OK : Z := 200.
Definition HTTP_201_CREATED : Z := 201.
Definition HTTP_400_BAD_REQUEST : Z := 400.
Definition HTTP_404_NOT_FOUND : Z := 404.
Definition HTTP_500_INTERNAL_SERVER_ERROR : Z := 500.

(** An exception no handler catches. *)
Definition server_error (what : string) : Response :=
  mkResponse HTTP_500_INTERNAL_SERVER_ERROR [("exception", VStr what)].

(** ** The ORM calls the source makes *)

Module Orm.

Inductive Got (A : Type) : Type :=
| Found (a : A)
| DoesNotExist
| MultipleObjectsReturned.
Arguments Found {A} a.
Arguments DoesNotExist {A}.
Arguments MultipleObjectsReturned {A}.

(** [Model.objects.get(...)] over the rows matching the lookup. *)
Definition get {A : Type} (matching : list A) : Got A :=
  match matching with
  | [] => DoesNotExist
  | [a] => Found a
  | _ => MultipleObjectsReturned
  end.

Definition orders_by_pk (pk : Z) (db : DB) : list Order.t :=
  List.filter (fun o => Order.id o =? pk) (orders db).

Definition orders_by_order_no (no : string) (db : DB) : list Order.t :=
  List.filter (fun o => String.eqb (Order.order_no o) no) (orders db).

(** [instance.save()] of a row that exists, which is the case at every
    call of the views: every column of the row with that key is
    written. *)
Definition save (o : Order.t) (db : DB) : DB :=
  mkDB (List.map (fun r => if Order.id r =? Order.id o then o else r) (orders db))
       (partners db) (order_seq db).

(** [instance.delete()]. *)
Definition delete (o : Order.t) (db : DB) : DB :=
  mkDB (List.filter (fun r => negb (Order.id r =? Order.id o)) (orders db))
       (partners db) (order_seq db).

(** [Order.objects.create(...)]: the row gets the next primary key. *)
Definition insert (mk_row : Z -> Order.t) (db : DB) : Order.t * DB :=
  let pk := order_seq db + 1 in
  (mk_row pk, mkDB (orders db ++ [mk_row pk]) (partners db) pk).

(** [qs.exclude(id__in=sub)] where [sub] yields nullable keys. *)
Definition exclude_id_in (D : Deployment) (sub : list (option Z))
    (rows : list BusinessPartner.t) : list BusinessPartner.t :=
  List.filter
    (fun b =>
       negb (existsb (fun k => match k with
                               | Some i => i =? BusinessPartner.id b
                               | None => false
                               end) sub)
       && negb (not_in_null_unknown D
                && existsb (fun k => match k with
                                     | None => true
                                     | Some _ => false
                                     end) sub))
    rows.

End Orm.

(** ** More string helpers of the Python library *)

Module PyStr.

(** [str(n)] for an integer. *)
Definition str_int (n : Z) : string :=
  if n <? 0 then String "-"%char (Py.digits (- n)) else Py.digits n.

Definition lower_char (c : ascii) : ascii :=
  let n := nat_of_ascii c in
  if ((65 <=? n) && (n <=? 90))%nat then ascii_of_nat (n + 32) else c.

Fixpoint lower (s : string) : string :=
  match s with
  | String c s' => String (lower_char c) (lower s')
  | EmptyString => EmptyString
  end.

(** [s.split("-", 1)] unpacked into two names: [None] is the
    [ValueError] of a failed unpacking (no dash in [s]). *)
Fixpoint split_dash (s : string) : option (string * string) :=
  match s with
  | EmptyString => None
  | String c s' =>
      if Ascii.eqb c "-"%char then Some (EmptyString, s')
      else match split_dash s' with
           | Some (a, b) => Some (String c a, b)
           | None => None
           end
  end.

End PyStr.

(** ** Outcomes of validation *)

Inductive Checked (A : Type) : Type :=
| Pass (a : A)
| ValidationError (errors : list (string * string))
| Raised (exception : string).
Arguments Pass {A} a.
Arguments ValidationError {A} errors.
Arguments Raised {A} exception.

(** The key a [CharField] column is compared with when the request
    gave [v]: strings as they are, integers through [str]; nothing
    else equals a stored order number. *)
Definition char_key (v : Value) : option string :=
  match v with
  | VStr s => Some s
  | VInt n => Some (PyStr.str_int n)
  | _ => None
  end.

Definition in_list (f : string) (l : list string) : bool :=
  existsb (String.eqb f) l.

(** ** serializers.py: OrderSerializer *)

Module OrderSerializer.

Definition Meta_fields : list string :=
  [ "order_image"; "order_no"; "bp_code"; "name"; "reference_no";
    "order_date"; "due_date"; "category"; "order_type"; "quantity";
    "weight"; "dtype"; "branch_code"; "product"; "design";
    "vendor_design"; "barcoded_quality"; "supplied"; "balance";
    "assigned_by"; "narration"; "note"; "sub_brand"; "make";
    "work_style"; "form"; "finish"; "theme"; "collection";
    "description"; "assign_remarks"; "screw"; "polish"; "metal_colour";
    "purity"; "stone"; "hallmark"; "rodium"; "enamel"; "hook"; "size";
    "open_close"; "length"; "hbt_class"; "console_id"; "tolerance_from";
    "tolerance_to" ].

Definition Meta_read_only_fields : list string := [ "order_no"; "order_date" ].

(** Fields declared as [SerializerMethodField], read-only by nature. *)
Definition method_fields : list string := [ "order_date" ].

(** The fields [to_internal_value] iterates over. *)
Definition writable_fields : list string :=
  List.filter
    (fun f => negb (in_list f Meta_read_only_fields) && negb (in_list f method_fields))
    Meta_fields.

Definition validate_due_date (today value : Z) : Checked Z :=
  let tomorrow := today + 1 in
  if value <=? today
  then ValidationError
         [("due_date", "Due date must be tomorrow or later. Cannot be today or in the past.")]
  else Pass value.

(** [SlugRelatedField(queryset=BusinessPartner.objects.all(),
    slug_field='bp_code', required=False, allow_null=True)]. *)
Definition bp_code_field (db : DB) (v : Value) : Checked Value :=
  match v with
  | VNull => Pass VNull
  | VStr EmptyString => Pass VNull
  | _ =>
      match char_key v with
      | None => ValidationError [("bp_code", "Invalid value.")]
      | Some slug =>
          match Orm.get (List.filter
                           (fun b => String.eqb (BusinessPartner.bp_code b) slug)
                           (partners db)) with
          | Orm.Found b => Pass (VRef (BusinessPartner.id b))
          | Orm.DoesNotExist =>
              ValidationError [("bp_code", "Object with bp_code does not exist.")]
          | Orm.MultipleObjectsReturned => Raised "MultipleObjectsReturned"
          end
      end
  end.

(** The date field of the model, followed by [validate_due_date];
    a null skips the method, as every empty value does. *)
Definition due_date_field (today : Z) (v : Value) : Checked Value :=
  match v with
  | VNull => Pass VNull
  | VDate d =>
      match validate_due_date today d with
      | Pass d' => Pass (VDate d')
      | ValidationError e => ValidationError e
      | Raised x => Raised x
      end
  | _ => ValidationError [("due_date", "Date has wrong format.")]
  end.

(** One writable field; the descriptive fields are taken as given. *)
Definition run_field (db : DB) (today : Z) (f : string) (v : Value) : Checked Value :=
  if String.eqb f "bp_code" then bp_code_field db v
  else if String.eqb f "due_date" then due_date_field today v
  else Pass v.

(** [to_internal_value]: only writable fields are read from the
    request, a missing optional field is skipped, field errors are
    collected. *)
Fixpoint to_internal_value_of (fields : list string) (db : DB) (today : Z)
    (data : gmap string Value) : Checked (gmap string Value) :=
  match fields with
  | [] => Pass ∅
  | f :: rest =>
      let later := to_internal_value_of rest db today data in
      match data !! f with
      | None => later
      | Some v =>
          match run_field db today f v, later with
          | Raised x, _ => Raised x
          | _, Raised x => Raised x
          | ValidationError e, ValidationError es => ValidationError (e ++ es)
          | ValidationError e, Pass _ => ValidationError e
          | Pass _, ValidationError es => ValidationError es
          | Pass v', Pass m => Pass (<[f := v']> m)
          end
      end
  end.

Definition to_internal_value := to_internal_value_of writable_fields.

Definition validate (data : gmap string Value) : Checked (gmap string Value) :=
  match data !! "order_date" with
  | Some _ =>
      ValidationError [("non_field_errors", "Order date is auto-set to today's date")]
  | None => Pass data
  end.

(** [run_validation], which [is_valid] calls. *)
Definition run_validation (db : DB) (today : Z) (data : gmap string Value)
    : Checked (gmap string Value) :=
  match to_internal_value db today data with
  | Pass value => validate value
  | other => other
  end.

(** The number the second [create] of the class computes. *)
Definition new_order_no (db : DB) : string :=
  match last (orders db) with
  | None => "001"
  | Some last_order =>
      match Py.int (Order.order_no last_order) with
      | Some last_number =>
          let new_number := last_number + 1 in
          Py.format_02d new_number
      | None => Py.format_02d (Z.of_nat (List.length (orders db)) + 1)
      end
  end.

Definition model_columns : list string :=
  [ "order_no"; "status"; "bp_code"; "due_date" ].

(** The model instance built from [validated_data]: columns from the dictionary, the model
    defaults elsewhere. *)
Definition row_of (D : Deployment) (today : Z) (validated_data : gmap string Value)
    (pk : Z) : Order.t :=
  Order.mk pk
    (match validated_data !! "order_no" with Some (VStr s) => s | _ => EmptyString end)
    (match validated_data !! "status" with Some (VStr s) => s | _ => EmptyString end)
    (match validated_data !! "bp_code" with Some (VRef b) => Some b | _ => None end)
    None None
    (match validated_data !! "due_date" with Some (VDate d) => Some d | _ => None end)
    (if order_date_auto D then Some today else None)
    VNull None VNull None VNull None
    (List.fold_right (fun k m => base.delete k m) validated_data model_columns).

(** The [post_save] receiver of [Order]. *)
Definition set_order_date (today : Z) (instance : Order.t) (created : bool)
    (db : DB) : DB :=
  match created, Order.order_date instance with
  | true, None => Orm.save (Order.with_order_date (Some today) instance) db
  | _, _ => db
  end.

(** [create]: the definition that is in force is the second one of
    the class body. *)
Definition create (D : Deployment) (db : DB) (today : Z)
    (validated_data : gmap string Value) : Checked Order.t * DB :=
  match validated_data !! "bp_code" with
  | None => (ValidationError [("bp_code", "This field is required.")], db)
  | Some b =>
      let validated_data := <["order_no" := VStr (new_order_no db)]> validated_data in
      match b, order_bp_code_null D with
      | VNull, false => (Raised "IntegrityError", db)
      | _, _ =>
          let '(instance, db1) := Orm.insert (row_of D today validated_data) db in
          let db2 := set_order_date today instance true db1 in
          (Pass instance, db2)
      end
  end.

(** [ModelSerializer.update]: every validated key is set, then saved. *)
Definition update (db : DB) (instance : Order.t)
    (validated_data : gmap string Value) : DB :=
  let o1 := match validated_data !! "bp_code" with
            | Some (VRef b) => Order.with_bp_code (Some b) instance
            | Some _ => Order.with_bp_code None instance
            | None => instance
            end in
  let o2 := match validated_data !! "due_date" with
            | Some (VDate d) => Order.with_due_date (Some d) o1
            | Some _ => Order.with_due_date None o1
            | None => o1
            end in
  let rest := List.fold_right (fun k m => base.delete k m) validated_data model_columns in
  Orm.save (Order.with_details (rest ∪ Order.details o2) o2) db.

End OrderSerializer.

(** ** serializers.py: the two request serializers the views use *)

Module OrderAssignmentSerializer.

Definition craftsmen_named (code name : string) (db : DB) : list BusinessPartner.t :=
  List.filter
    (fun b => String.eqb (BusinessPartner.bp_code b) code
              && String.eqb (PyStr.lower (BusinessPartner.business_name b))
                            (PyStr.lower (Py.strip name))
              && String.eqb (BusinessPartner.role b) "CRAFTSMAN")
    (partners db).

Definition validate_bp_code (db : DB) (value : string) : Checked string :=
  match PyStr.split_dash value with
  | Some (code_part, business_name_part) =>
      match craftsmen_named code_part business_name_part db with
      | [] => ValidationError
                [("bp_code", "No CRAFTSMAN found with this BP Code and Business Name.")]
      | _ => Pass value
      end
  | None => ValidationError
              [("bp_code", "BP Code must be in format 'CODE-Business Name'.")]
  end.

Definition validate_order_no (db : DB) (value : Z) : Checked Z :=
  match Orm.orders_by_pk value db with
  | [] => ValidationError [("order_no", "Order does not exist.")]
  | _ => Pass value
  end.

Record validated : Type := mkValidated {
  order_no : Z;
  bp_code : string;
  due_date : option Z
}.

(** [order_no = IntegerField()], [bp_code = CharField()] (trimmed,
    not blank), [due_date = DateField(required=False)]. *)
Definition run_validation (db : DB) (data : gmap string Value) : Checked validated :=
  let order_no_r :=
    match data !! "order_no" with
    | Some (VInt n) => validate_order_no db n
    | Some (VStr s) =>
        match Py.int s with
        | Some n => validate_order_no db n
        | None => ValidationError [("order_no", "A valid integer is required.")]
        end
    | Some _ => ValidationError [("order_no", "A valid integer is required.")]
    | None => ValidationError [("order_no", "This field is required.")]
    end in
  let bp_code_r :=
    match data !! "bp_code" with
    | Some v =>
        match char_key v with
        | Some s =>
            match Py.strip s with
            | EmptyString => ValidationError [("bp_code", "This field may not be blank.")]
            | s' => validate_bp_code db s'
            end
        | None => ValidationError [("bp_code", "Not a valid string.")]
        end
    | None => ValidationError [("bp_code", "This field is required.")]
    end in
  let due_date_r :=
    match data !! "due_date" with
    | None => Pass None
    | Some (VDate d) => Pass (Some d)
    | Some _ => ValidationError [("due_date", "Date has wrong format.")]
    end in
  match order_no_r, bp_code_r, due_date_r with
  | Pass n, Pass b, Pass d => Pass (mkValidated n b d)
  | _, _, _ =>
      ValidationError
        (match order_no_r with ValidationError e => e | _ => [] end
         ++ match bp_code_r with ValidationError e => e | _ => [] end
         ++ match due_date_r with ValidationError e => e | _ => [] end)
  end.

End OrderAssignmentSerializer.

Module OrderActionSerializer.

Record validated : Type := mkValidated {
  order_no : string;
  action : string
}.

(** [order_no = CharField()], [action = ChoiceField(["accept", "reject"])]. *)
Definition run_validation (data : gmap string Value) : Checked validated :=
  let order_no_r :=
    match data !! "order_no" with
    | Some v =>
        match char_key v with
        | Some s =>
            match Py.strip s with
            | EmptyString => ValidationError [("order_no", "This field may not be blank.")]
            | s' => Pass s'
            end
        | None => ValidationError [("order_no", "Not a valid string.")]
        end
    | None => ValidationError [("order_no", "This field is required.")]
    end in
  let action_r :=
    match data !! "action" with
    | Some (VStr a) =>
        if String.eqb a "accept" || String.eqb a "reject" then Pass a
        else ValidationError [("action", "Not a valid choice.")]
    | Some _ => ValidationError [("action", "Not a valid choice.")]
    | None => ValidationError [("action", "This field is required.")]
    end in
  match order_no_r, action_r with
  | Pass n, Pass a => Pass (mkValidated n a)
  | _, _ =>
      ValidationError
        (match order_no_r with ValidationError e => e | _ => [] end
         ++ match action_r with ValidationError e => e | _ => [] end)
  end.

End OrderActionSerializer.

(** ** views.py *)

Definition error_response (status : Z) (msg : string) : Response :=
  mkResponse status [("error", VStr msg)].

Definition errors_response (errors : list (string * string)) : Response :=
  mkResponse HTTP_400_BAD_REQUEST (List.map (fun '(k, m) => (k, VStr m)) errors).

Definition not_found : Response :=
  mkResponse HTTP_404_NOT_FOUND [("detail", VStr "Not found.")].

(** [request.data.get(key, '')]. *)
Definition data_get (data : gmap string Value) (key : string) : Value :=
  default (VStr EmptyString) (data !! key).

(** [Order.objects.get(order_no=v)] for whatever the request carried
    under the key. *)
Definition get_by_order_no (v : option Value) (db : DB) : Orm.Got Order.t :=
  match v ≫= char_key with
  | Some no => Orm.get (Orm.orders_by_order_no no db)
  | None => Orm.DoesNotExist
  end.

Module KeyUserApprovalView.

Definition post (db : DB) (user : User.t) (order_no : Z)
    (data : gmap string Value) : Response * DB :=
  match head (Orm.orders_by_pk order_no db) with
  | None => (not_found, db)
  | Some order =>
      if negb (String.eqb (Order.status order) "pending")
      then (error_response HTTP_400_BAD_REQUEST
              "Only pending orders can be approved by key user.", db)
      else
        let order := Order.with_status "in-process" order in
        let order := Order.with_key_user_approval
                       (data_get data "approval_notes") (Some (User.id user)) order in
        (mkResponse HTTP_200_OK
           [("message", VStr "Order approved by Key User. Waiting for Admin verification.");
            ("order_no", VInt order_no);
            ("status", VStr "in-process");
            ("approved_by", VStr (User.username user))],
         Orm.save order db)
  end.

Definition delete (db : DB) (user : User.t) (order_no : Z)
    (data : gmap string Value) : Response * DB :=
  match head (Orm.orders_by_pk order_no db) with
  | None => (not_found, db)
  | Some order =>
      if negb (String.eqb (Order.status order) "pending")
      then (error_response HTTP_400_BAD_REQUEST
              "Only pending orders can be rejected by Key User.", db)
      else
        let rejection_notes := data_get data "rejection_notes" in
        (mkResponse HTTP_200_OK
           [("message", VStr "Order rejected by Key User and deleted.");
            ("order_no", VInt order_no);
            ("rejection_notes", rejection_notes)],
         Orm.delete order db)
  end.

End KeyUserApprovalView.

Module AdminVerificationView.

Definition post (db : DB) (user : User.t) (order_no : Z)
    (data : gmap string Value) : Response * DB :=
  match head (Orm.orders_by_pk order_no db) with
  | None => (not_found, db)
  | Some order =>
      if negb (String.eqb (Order.status order) "in-process")
      then (error_response HTTP_400_BAD_REQUEST
              "Only in-process orders can be verified by admin.", db)
      else
        let order := Order.with_status "verified" order in
        let order := Order.with_admin_approval
                       (data_get data "approval_notes") (Some (User.id user)) order in
        (mkResponse HTTP_200_OK
           [("message", VStr "Order verified by admin. Ready for craftsman assignment.");
            ("order_no", VInt order_no);
            ("status", VStr "verified");
            ("verified_by", VStr (User.username user))],
         Orm.save order db)
  end.

Definition delete (db : DB) (user : User.t) (order_no : Z)
    (data : gmap string Value) : Response * DB :=
  match head (Orm.orders_by_pk order_no db) with
  | None => (not_found, db)
  | Some order =>
      if negb (String.eqb (Order.status order) "in-process")
      then (error_response HTTP_400_BAD_REQUEST
              "Only in-process orders can be rejected by admin.", db)
      else
        let order := Order.with_status "admin-rejected" order in
        let order := Order.with_admin_rejection
                       (data_get data "rejection_notes") (Some (User.id user)) order in
        (mkResponse HTTP_200_OK
           [("message", VStr "Order rejected by admin.");
            ("order_no", VInt order_no);
            ("status", VStr "admin-rejected");
            ("rejected_by", VStr (User.username user))],
         Orm.save order db)
  end.

End AdminVerificationView.

Module OrderCreateView.

(** [post]: validation, then [status = 'pending'] and [save()], which
    calls [OrderSerializer.create].  A [ValidationError] raised inside
    [create] is answered with 400 by the framework. *)
Definition post (D : Deployment) (db : DB) (today : Z)
    (data : gmap string Value) : Response * DB :=
  match OrderSerializer.run_validation db today data with
  | Pass validated_data =>
      let validated_data := <["status" := VStr "pending"]> validated_data in
      match OrderSerializer.create D db today validated_data with
      | (Pass instance, db') =>
          (mkResponse HTTP_201_CREATED
             [("order_no", VStr (Order.order_no instance))], db')
      | (ValidationError errors, db') => (errors_response errors, db')
      | (Raised x, db') => (server_error x, db')
      end
  | ValidationError errors => (errors_response errors, db)
  | Raised x => (server_error x, db)
  end.

End OrderCreateView.

Module OrderDetailView.

(** [put]: partial update of the order with the given number. *)
Definition put (db : DB) (today : Z) (order_no : string)
    (data : gmap string Value) : Response * DB :=
  match Orm.get (Orm.orders_by_order_no order_no db) with
  | Orm.DoesNotExist => (not_found, db)
  | Orm.MultipleObjectsReturned => (server_error "MultipleObjectsReturned", db)
  | Orm.Found instance =>
      match OrderSerializer.run_validation db today data with
      | Pass validated_data =>
          (mkResponse HTTP_200_OK [("order_no", VStr (Order.order_no instance))],
           OrderSerializer.update db instance validated_data)
      | ValidationError errors => (errors_response errors, db)
      | Raised x => (server_error x, db)
      end
  end.

End OrderDetailView.

Module AssignOrdersToCraftsman.

(** [post]: everything after validation runs under
    [except Exception], which answers 400. *)
Definition post (db : DB) (data : gmap string Value) : Response * DB :=
  match OrderAssignmentSerializer.run_validation db data with
  | ValidationError errors => (errors_response errors, db)
  | Raised x => (server_error x, db)
  | Pass v =>
      let order_no := OrderAssignmentSerializer.order_no v in
      let due_date := OrderAssignmentSerializer.due_date v in
      let failed (msg : string) :=
        (mkResponse HTTP_400_BAD_REQUEST
           [("status", VStr "error"); ("message", VStr msg)], db) in
      match PyStr.split_dash (OrderAssignmentSerializer.bp_code v) with
      | None => failed "not enough values to unpack (expected 2, got 1)"
      | Some (code_part, business_name_part) =>
          match Orm.get (OrderAssignmentSerializer.craftsmen_named
                           code_part business_name_part db) with
          | Orm.DoesNotExist => failed "No BusinessPartner matches the given query."
          | Orm.MultipleObjectsReturned => failed "MultipleObjectsReturned"
          | Orm.Found craftsman =>
              match head (Orm.orders_by_pk order_no db) with
              | None => failed "No Order matches the given query."
              | Some order =>
                  let order := Order.with_craftsman
                                 (Some (BusinessPartner.id craftsman)) order in
                  let order := Order.with_status "assigned" order in
                  let order := match due_date with
                               | Some d => Order.with_due_date (Some d) order
                               | None => order
                               end in
                  (mkResponse HTTP_200_OK
                     [("status", VStr "success");
                      ("message", VStr ("Order " +:+ PyStr.str_int order_no
                                        +:+ " assigned to "
                                        +:+ BusinessPartner.full_name craftsman));
                      ("due_date", match Order.due_date order with
                                   | Some d => VDate d
                                   | None => VNull
                                   end)],
                   Orm.save order db)
              end
          end
      end
  end.

End AssignOrdersToCraftsman.

Module CraftsmanOrderResponse.

(** The craftsman keys of the orders with this number that stand as
    rejected, then the first CRAFTSMAN not among them. *)
Definition get_next_available_craftsman (D : Deployment) (db : DB) (order : Order.t)
    : option BusinessPartner.t :=
  let rejected_by :=
    List.map Order.craftsman
      (List.filter
         (fun o => String.eqb (Order.order_no o) (Order.order_no order)
                   && String.eqb (Order.status o) "rejected")
         (orders db)) in
  head (Orm.exclude_id_in D rejected_by
          (List.filter (fun b => String.eqb (BusinessPartner.role b) "CRAFTSMAN")
             (partners db))).

Definition partner_by_pk (pk : Z) (db : DB) : option BusinessPartner.t :=
  head (List.filter (fun b => BusinessPartner.id b =? pk) (partners db)).

(** [post]; [user] is [request.user], which the view never reads.  The
    message of a rejection that finds no replacement prints the
    craftsman through the [__str__] of the model, which is not in the
    two source files: the response carries the craftsman's key under
    [rejected_by] in its place. *)
Definition post (D : Deployment) (db : DB) (user : User.t)
    (data : gmap string Value) : Response * DB :=
  match OrderActionSerializer.run_validation data with
  | ValidationError errors => (errors_response errors, db)
  | Raised x => (server_error x, db)
  | Pass v =>
      let order_no := OrderActionSerializer.order_no v in
      let action := OrderActionSerializer.action v in
      match Orm.get (Orm.orders_by_order_no order_no db) with
      | Orm.DoesNotExist => (error_response HTTP_404_NOT_FOUND "Order not found", db)
      | Orm.MultipleObjectsReturned => (server_error "MultipleObjectsReturned", db)
      | Orm.Found order =>
          if negb (String.eqb (Order.status order) "assigned")
          then (error_response HTTP_400_BAD_REQUEST
                  "Order is already in assigned state", db)
          else if String.eqb action "accept" then
            let order := Order.with_status "in-process" order in
            let db := Orm.save order db in
            match Order.craftsman order ≫= (fun pk => partner_by_pk pk db) with
            | None => (server_error "AttributeError", db)
            | Some craftsman =>
                (mkResponse HTTP_200_OK
                   [("status", VStr "success");
                    ("message", VStr ("Order " +:+ order_no
                                      +:+ " accepted and is now in-process"));
                    ("order_status", VStr (Order.status order));
                    ("craftsman", VStr (BusinessPartner.full_name craftsman))],
                 db)
            end
          else if String.eqb action "reject" then
            let current_craftsman := Order.craftsman order in
            let order := Order.with_status "rejected" order in
            let order := Order.with_rejected_by current_craftsman order in
            let order := Order.with_craftsman None order in
            let db := Orm.save order db in
            match get_next_available_craftsman D db order with
            | Some next_craftsman =>
                let order := Order.with_craftsman
                               (Some (BusinessPartner.id next_craftsman)) order in
                let order := Order.with_status "assigned" order in
                let db := Orm.save order db in
                (mkResponse HTTP_200_OK
                   [("message", VStr ("Order " +:+ order_no +:+ " reassigned to "
                                      +:+ BusinessPartner.full_name next_craftsman));
                    ("new_craftsman", VStr (BusinessPartner.full_name next_craftsman));
                    ("new_craftsman_bp_code",
                     VStr (BusinessPartner.bp_code next_craftsman +:+ "-"
                           +:+ BusinessPartner.business_name next_craftsman));
                    ("order_status", VStr (Order.status order))],
                 db)
            | None =>
                (mkResponse HTTP_200_OK
                   [("rejected_by", match current_craftsman with
                                    | Some pk => VRef pk
                                    | None => VNull
                                    end);
                    ("order_status", VStr (Order.status order))],
                 db)
            end
          else (server_error "no response returned", db)
      end
  end.

End CraftsmanOrderResponse.

Module ApproveOrderView.

(** [post]: the craftsman reports the order as completed. *)
Definition post (db : DB) (data : gmap string Value) : Response * DB :=
  let order_no := data !! "order_no" in
  match get_by_order_no order_no db with
  | Orm.DoesNotExist => (error_response HTTP_404_NOT_FOUND "Order not found", db)
  | Orm.MultipleObjectsReturned => (server_error "MultipleObjectsReturned", db)
  | Orm.Found order =>
      if negb (String.eqb (Order.status order) "in-process")
      then (error_response HTTP_400_BAD_REQUEST "Order is not in-process", db)
      else
        let order := Order.with_status "awaiting-approval" order in
        (mkResponse HTTP_200_OK
           [("message", VStr ("Order " +:+ Order.order_no order +:+
                              " marked as completed by craftsman, waiting for approval"))],
         Orm.save order db)
  end.

End ApproveOrderView.

Module CompletedOrdersView.

(** [post]: the admin approves the completion. *)
Definition post (db : DB) (data : gmap string Value) : Response * DB :=
  let order_no := data !! "order_no" in
  match get_by_order_no order_no db with
  | Orm.DoesNotExist => (error_response HTTP_404_NOT_FOUND "Order not found", db)
  | Orm.MultipleObjectsReturned => (server_error "MultipleObjectsReturned", db)
  | Orm.Found order =>
      if negb (String.eqb (Order.status order) "awaiting-approval")
      then (error_response HTTP_400_BAD_REQUEST "Order is not awaiting approval", db)
      else
        let order := Order.with_status "complete" order in
        (mkResponse HTTP_200_OK
           [("status", VStr "completed");
            ("message", VStr ("Order " +:+ Order.order_no order +:+
                              " approved and marked as complete"))],
         Orm.save order db)
  end.

End CompletedOrdersView.

(** ** The request dispatcher *)

Inductive Action : Type :=
| CreateOrder
| UpdateOrder (order_no : string)
| KeyUserApprove (pk : Z)
| KeyUserRejectDelete (pk : Z)
| AdminVerify (pk : Z)
| AdminReject (pk : Z)
| AssignToCraftsman
| CraftsmanRespond
| CraftsmanMarkComplete
| AdminApproveCompletion.

Record Request : Type := mkRequest {
  actor : User.t;
  today : Z;
  action : Action;
  payload : gmap string Value
}.

Definition dispatch (D : Deployment) (db : DB) (r : Request) : Response * DB :=
  match action r with
  | CreateOrder => OrderCreateView.post D db (today r) (payload r)
  | UpdateOrder no => OrderDetailView.put db (today r) no (payload r)
  | KeyUserApprove pk => KeyUserApprovalView.post db (actor r) pk (payload r)
  | KeyUserRejectDelete pk => KeyUserApprovalView.delete db (actor r) pk (payload r)
  | AdminVerify pk => AdminVerificationView.post db (actor r) pk (payload r)
  | AdminReject pk => AdminVerificationView.delete db (actor r) pk (payload r)
  | AssignToCraftsman => AssignOrdersToCraftsman.post db (payload r)
  | CraftsmanRespond => CraftsmanOrderResponse.post D db (actor r) (payload r)
  | CraftsmanMarkComplete => ApproveOrderView.post db (payload r)
  | AdminApproveCompletion => CompletedOrdersView.post db (payload r)
  end.

(** Requests served one after the other; the responses come back in
    the order of the requests. *)
Fixpoint serve (D : Deployment) (db : DB) (rs : list Request) : list Response * DB :=
  match rs with
  | [] => ([], db)
  | r :: rest =>
      let '(resp, db1) := dispatch D db r in
      let '(resps, db2) := serve D db1 rest in
      (resp :: resps, db2)
  end.

(** A store with a craftsman directory and no order yet. *)
Definition empty_store (directory : list BusinessPartner.t) : DB :=
  mkDB [] directory 0.

(** ** Notions used in the statements *)



(** The order number the specification describes: the successor of the
    last number, and the count plus one when there is no last order or
    its number does not parse. *)
Definition spec_order_no (db : DB) : string :=
  match last (orders db) ≫= (fun o => Py.int (Order.order_no o)) with
  | Some n => Py.format_02d (n + 1)
  | None => Py.format_02d (Z.of_nat (List.length (orders db)) + 1)
  end.

(** Status and craftsman of the order with key [pk]. *)
Definition snapshot (db : DB) (pk : Z) : option (string * option Z) :=
  (fun o => (Order.status o, Order.craftsman o)) <$> head (Orm.orders_by_pk pk db).

(** The response code of every request of a run, with the snapshot of
    order [pk] after it. *)
Fixpoint serve_observing (D : Deployment) (db : DB) (rs : list Request) (pk : Z)
    : list (Z * option (string * option Z)) :=
  match rs with
  | [] => []
  | r :: rest =>
      let '(resp, db1) := dispatch D db r in
      (code resp, snapshot db1 pk) :: serve_observing D db1 rest pk
  end.


Definition order_number (o : Order.t) : option Z := Py.int (Order.order_no o).

(** Rows in creation order whose keys and numeric order numbers both
    grow strictly, above the given bounds. *)
Fixpoint ascending (lo_id lo_no : Z) (l : list Order.t) : Prop :=
  match l with
  | [] => True
  | o :: l' =>
      lo_id < Order.id o
      /\ exists n, order_number o = Some n /\ lo_no < n
                   /\ ascending (Order.id o) n l'
  end.

Definition well_numbered (db : DB) : Prop :=
  ascending 0 0 (orders db)
  /\ List.Forall (fun o => Order.id o <= order_seq db) (orders db)
  /\ 0 <= order_seq db.

(** [o'] is a later state of the row [order]: same key, same number,
    same order date. *)
Definition keeps_number (order o' : Order.t) : Prop :=
  Order.id o' = Order.id order
  /\ Order.order_no o' = Order.order_no order
  /\ Order.order_date o' = Order.order_date order.

(** Every row of [db'] is a row of [db] with its key and order date. *)
Definition rows_kept (db db' : DB) : Prop :=
  forall o', In o' (orders db') ->
    exists o, In o (orders db) /\ Order.id o' = Order.id o
              /\ Order.order_date o' = Order.order_date o.

(** Every row of [db'] is a row of [db] with its key and order date,
    or a row created on [day] with a key [db] had not handed out. *)
Definition order_dates_kept (day : Z) (db db' : DB) : Prop :=
  forall o', In o' (orders db') ->
    (exists o, In o (orders db) /\ Order.id o' = Order.id o
               /\ Order.order_date o' = Order.order_date o)
    \/ (order_seq db < Order.id o' /\ Order.order_date o' = Some day).

(** ** serializers.py: CraftsmanSerializer, and the listing views *)

Module CraftsmanSerializer.

(** [get_bp_code]: a business partner has a [business_name], so the
    first branch is the one taken. *)
Definition get_bp_code (obj : BusinessPartner.t) : string :=
  BusinessPartner.bp_code obj +:+ "-" +:+ BusinessPartner.business_name obj.

Record data : Type := mkData {
  id : Z;
  full_name : string;
  bp_code : string
}.

Definition to_representation (obj : BusinessPartner.t) : data :=
  mkData (BusinessPartner.id obj) (BusinessPartner.full_name obj) (get_bp_code obj).

End CraftsmanSerializer.

(** [AssignOrdersToCraftsman.get]: the craftsmen one can assign to. *)
Definition AssignOrdersToCraftsman_get (db : DB) : list CraftsmanSerializer.data :=
  List.map CraftsmanSerializer.to_representation
    (List.filter (fun b => String.eqb (BusinessPartner.role b) "CRAFTSMAN") (partners db)).

(** The rows the order listings select; their serialization is left
    out. *)
Definition orders_with_status (s : string) (db : DB) : list Order.t :=
  List.filter (fun o => String.eqb (Order.status o) s) (orders db).

Definition NewOrdersListView_get (db : DB) : list Order.t :=
  orders_with_status "in-process" db.

Definition OrderInProcessAPI_get (db : DB) : list Order.t :=
  orders_with_status "in-process" db.

Definition CraftsmanAssignedOrders_get (db : DB) : list Order.t :=
  orders_with_status "assigned" db.

Definition CompletedOrdersView_get (db : DB) : list Order.t :=
  orders_with_status "complete" db.

Definition AssignedOrdersList_get (db : DB) : list Order.t :=
  List.filter (fun o => match Order.craftsman o with Some _ => true | None => false end)
    (orders db).

(** [RejectedOrdersView.get]: number of the order and the names of the
    craftsman who rejected it, with the count of the rows. *)
Definition RejectedOrdersView_get (db : DB)
    : list (string * option BusinessPartner.t) * Z :=
  let rejected_orders :=
    List.map (fun o => (Order.order_no o,
                        Order.rejected_by o
                          ≫= (fun pk => CraftsmanOrderResponse.partner_by_pk pk db)))
      (orders_with_status "rejected" db) in
  (rejected_orders, Z.of_nat (List.length rejected_orders)).

(** ** Invariants of the stored orders *)

(** The status labels the views write. *)
Definition status_labels : list string :=
  [ "pending"; "in-process"; "verified"; "admin-rejected"; "assigned";
    "rejected"; "awaiting-approval"; "complete" ].

Definition in_directory (directory : list BusinessPartner.t) (pk : Z) : Prop :=
  exists b, In b directory /\ BusinessPartner.id b = pk.

Definition row_ok (directory : list BusinessPartner.t) (o : Order.t) : Prop :=
  In (Order.status o) status_labels
  /\ (forall c, Order.craftsman o = Some c -> in_directory directory c)
  /\ (forall c, Order.rejected_by o = Some c -> in_directory directory c)
  /\ (Order.status o = "assigned" -> Order.craftsman o <> None)
  /\ (Order.status o = "rejected" ->
      Order.craftsman o = None /\ Order.rejected_by o <> None)
  /\ (Order.status o = "pending" -> Order.craftsman o = None)
  /\ Order.order_date o <> None.

Definition store_ok (db : DB) : Prop :=
  List.Forall (row_ok (partners db)) (orders db).


(** No dash in a string. *)
Definition no_dash (s : string) : bool :=
  Py.all_chars (fun c => negb (Ascii.eqb c "-"%char)) s.

(** ** Sample data *)

Module Sample.

Definition C1 : BusinessPartner.t :=
  BusinessPartner.mk 1 "C1" "Alpha Works" "Craftsman One" "CRAFTSMAN".
Definition C2 : BusinessPartner.t :=
  BusinessPartner.mk 2 "C2" "Beta Works" "Craftsman Two" "CRAFTSMAN".
Definition seller : BusinessPartner.t :=
  BusinessPartner.mk 3 "S1" "Shop" "Seller One" "SELLER".

Definition directory : list BusinessPartner.t := [C1; C2; seller].

Definition customer : User.t := User.mk 10 "customer" "User".
Definition key_user : User.t := User.mk 11 "keyuser" "Key User".
Definition admin : User.t := User.mk 12 "admin" "Admin".
Definition user_C1 : User.t := User.mk 1 "craftsman1" "Craftsman".
Definition user_C2 : User.t := User.mk 2 "craftsman2" "Craftsman".
Definition stranger : User.t := User.mk 99 "stranger" "User".

(** Both readings of a NULL under [NOT IN]. *)
Definition sql : Deployment := mkDeployment true true false.
Definition plain : Deployment := mkDeployment false true false.

Definition day : Z := 739000.

Definition body_of (l : list (string * Value)) : gmap string Value := list_to_map l.

Definition new_order : gmap string Value :=
  body_of [("bp_code", VStr "S1"); ("due_date", VDate (day + 1))].

Definition on_order_001 (a : string) : gmap string Value :=
  body_of [("order_no", VStr "001"); ("action", VStr a)].

Definition create : Request := mkRequest customer day CreateOrder new_order.

(** The scenario of the specification, one request per step. *)
Definition scenario : list Request :=
  [ create;
    mkRequest key_user day (KeyUserApprove 1) ∅;
    mkRequest admin day (AdminVerify 1) ∅;
    mkRequest admin day AssignToCraftsman
      (body_of [("order_no", VInt 1); ("bp_code", VStr "C1-Alpha Works")]);
    mkRequest user_C1 day CraftsmanRespond (on_order_001 "reject");
    mkRequest user_C2 day CraftsmanRespond (on_order_001 "accept");
    mkRequest user_C2 day CraftsmanMarkComplete (on_order_001 "");
    mkRequest admin day AdminApproveCompletion (on_order_001 "") ].

(** Order 001 as it stands once it has been assigned to C1. *)
Definition assigned_to_C1 (D : Deployment) : DB :=
  snd (serve D (empty_store directory) (firstn 4 scenario)).

End Sample.

(** * Facts about the Python helpers *)

Section PyFacts.

Lemma is_digit_not_space c :
  Py.is_digit c = true ->
  Py.is_space c = false /\ Ascii.eqb c "-"%char = false
  /\ Ascii.eqb c "+"%char = false.
Proof.
  destruct c as [[] [] [] [] [] [] [] []]; vm_compute; intros H;
    solve [ discriminate H | repeat split; reflexivity ].
Qed.

Lemma digit_char_spec d :
  0 <= d <= 9 ->
  Py.is_digit (Py.digit_char d) = true /\ Py.digit_val (Py.digit_char d) = d.
Proof.
  intros Hd.
  assert (Hc : d = 0 \/ d = 1 \/ d = 2 \/ d = 3 \/ d = 4 \/ d = 5 \/ d = 6
               \/ d = 7 \/ d = 8 \/ d = 9) by lia.
  repeat (destruct Hc as [-> | Hc]; [ split; reflexivity | ]).
  subst d. split; reflexivity.
Qed.

Lemma digits_aux_unfold f n acc :
  Py.digits_aux (S f) n acc =
  if n <? 10 then String (Py.digit_char (n mod 10)) acc
  else Py.digits_aux f (n / 10) (String (Py.digit_char (n mod 10)) acc).
Proof. reflexivity. Qed.

Lemma digits_aux_length f n acc :
  (String.length acc <= String.length (Py.digits_aux f n acc))%nat.
Proof.
  revert n acc. induction f as [| f IH]; intros n acc; [ simpl; lia | ].
  rewrite digits_aux_unfold. destruct (n <? 10); [ simpl; lia | ].
  etransitivity; [ | apply IH ]. simpl. lia.
Qed.

Lemma digits_aux_all_digits f n acc :
  0 <= n ->
  Py.all_chars Py.is_digit acc = true ->
  Py.all_chars Py.is_digit (Py.digits_aux f n acc) = true.
Proof.
  revert n acc. induction f as [| f IH]; intros n acc Hn Hacc; [ exact Hacc | ].
  rewrite digits_aux_unfold.
  assert (Hd : Py.is_digit (Py.digit_char (n mod 10)) = true).
  { apply digit_char_spec. pose proof (Z.mod_pos_bound n 10). lia. }
  destruct (n <? 10).
  - simpl. rewrite Hd, Hacc. reflexivity.
  - apply IH; [ apply Z.div_pos; lia | simpl; rewrite Hd, Hacc; reflexivity ].
Qed.

Lemma int_digits_digits_aux f n acc seen :
  0 <= n < 2 ^ Z.of_nat (S f) ->
  Py.int_digits (Py.digits_aux (S f) n acc) 0 seen = Py.int_digits acc n true.
Proof.
  revert n acc seen. induction f as [| f IH]; intros n acc seen Hn.
  - rewrite digits_aux_unfold.
    assert (Hlt : (n <? 10) = true) by (apply Z.ltb_lt; simpl in Hn; lia).
    rewrite Hlt. simpl.
    destruct (digit_char_spec (n mod 10)) as [Hd Hv];
      [ pose proof (Z.mod_pos_bound n 10); lia | ].
    rewrite Hd, Hv. f_equal. rewrite Z.mod_small; simpl in Hn; lia.
  - rewrite digits_aux_unfold.
    destruct (digit_char_spec (n mod 10)) as [Hd Hv];
      [ pose proof (Z.mod_pos_bound n 10); lia | ].
    destruct (n <? 10) eqn:Hlt.
    + apply Z.ltb_lt in Hlt. simpl. rewrite Hd, Hv. f_equal.
      rewrite Z.mod_small; lia.
    + apply Z.ltb_ge in Hlt. rewrite IH.
      * simpl. rewrite Hd, Hv. f_equal.
        pose proof (Z.div_mod n 10). lia.
      * split; [ apply Z.div_pos; lia | ].
        apply Z.div_lt_upper_bound; [ lia | ].
        rewrite Nat2Z.inj_succ, Z.pow_succ_r in Hn by lia. lia.
Qed.

Lemma digits_bound n : 0 <= n -> 0 <= n < 2 ^ Z.of_nat (S (Z.to_nat (Z.log2 n))).
Proof.
  intros Hn. split; [ exact Hn | ].
  rewrite Nat2Z.inj_succ, Z2Nat.id by apply Z.log2_nonneg.
  destruct (Z.eq_dec n 0) as [-> | Hne]; [ reflexivity | ].
  apply Z.log2_spec. lia.
Qed.

Lemma int_digits_digits n seen :
  0 <= n -> Py.int_digits (Py.digits n) 0 seen = Some n.
Proof.
  intros Hn. unfold Py.digits.
  rewrite int_digits_digits_aux by (apply digits_bound; exact Hn).
  reflexivity.
Qed.

Lemma digits_all_digits n : 0 <= n -> Py.all_chars Py.is_digit (Py.digits n) = true.
Proof. intros Hn. apply digits_aux_all_digits; [ exact Hn | reflexivity ]. Qed.

Lemma digits_head n :
  0 <= n -> exists c r, Py.digits n = String c r /\ Py.is_digit c = true.
Proof.
  intros Hn. pose proof (digits_all_digits n Hn) as Hall.
  unfold Py.digits in *. rewrite digits_aux_unfold in *.
  destruct (n <? 10).
  - eexists _, _. split; [ reflexivity | ].
    simpl in Hall. apply andb_true_iff in Hall. tauto.
  - pose proof (digits_aux_length (Z.to_nat (Z.log2 n)) (n / 10)
                  (String (Py.digit_char (n mod 10)) EmptyString)) as Hlen.
    destruct (Py.digits_aux _ _ _) as [| c r]; [ simpl in Hlen; lia | ].
    eexists _, _. split; [ reflexivity | ].
    simpl in Hall. apply andb_true_iff in Hall. tauto.
Qed.

Lemma rstrip_no_space s :
  Py.all_chars (fun c => negb (Py.is_space c)) s = true -> Py.rstrip s = s.
Proof.
  induction s as [| c s IH]; [ reflexivity | ].
  simpl. intros H. apply andb_true_iff in H as [Hc Hs].
  rewrite (IH Hs). apply negb_true_iff in Hc. rewrite Hc.
  destruct s; reflexivity.
Qed.

Lemma strip_no_space s :
  Py.all_chars (fun c => negb (Py.is_space c)) s = true -> Py.strip s = s.
Proof.
  intros H. unfold Py.strip.
  assert (Hl : Py.lstrip s = s).
  { destruct s as [| c s]; [ reflexivity | ].
    simpl in *. apply andb_true_iff in H as [Hc _].
    apply negb_true_iff in Hc. rewrite Hc. reflexivity. }
  rewrite Hl. apply rstrip_no_space, H.
Qed.

Lemma all_digits_no_space s :
  Py.all_chars Py.is_digit s = true ->
  Py.all_chars (fun c => negb (Py.is_space c)) s = true.
Proof.
  induction s as [| c s IH]; [ reflexivity | ].
  simpl. intros H. apply andb_true_iff in H as [Hc Hs].
  destruct (is_digit_not_space c Hc) as [Hsp _].
  rewrite Hsp, (IH Hs). reflexivity.
Qed.

(** Parsing what [format_02d] printed gives the number back. *)
Lemma int_format_02d n : Py.int (Py.format_02d n) = Some n.
Proof.
  unfold Py.format_02d.
  destruct (n <? 0) eqn:Hneg.
  - apply Z.ltb_lt in Hneg.
    unfold Py.int. rewrite strip_no_space.
    + simpl. rewrite int_digits_digits by lia. simpl. f_equal. lia.
    + simpl. apply all_digits_no_space, digits_all_digits. lia.
  - apply Z.ltb_ge in Hneg.
    destruct (n <? 10) eqn:Hlt.
    + unfold Py.int. rewrite strip_no_space.
      * simpl. apply int_digits_digits. exact Hneg.
      * simpl. apply all_digits_no_space, digits_all_digits. exact Hneg.
    + unfold Py.int. rewrite strip_no_space
        by (apply all_digits_no_space, digits_all_digits; exact Hneg).
      pose proof (int_digits_digits n false Hneg) as Hint.
      destruct (digits_head n Hneg) as (c & r & Heq & Hc).
      rewrite Heq in *.
      destruct (is_digit_not_space c Hc) as (_ & Hm & Hp).
      rewrite Hm, Hp. exact Hint.
Qed.

Lemma format_02d_length n : (2 <= String.length (Py.format_02d n))%nat.
Proof.
  unfold Py.format_02d.
  destruct (n <? 0) eqn:Hneg.
  - apply Z.ltb_lt in Hneg.
    destruct (digits_head (- n)) as (c & r & Heq & _); [ lia | ].
    rewrite Heq. simpl. lia.
  - apply Z.ltb_ge in Hneg. destruct (n <? 10) eqn:Hlt.
    + destruct (digits_head n Hneg) as (c & r & Heq & _).
      rewrite Heq. simpl. lia.
    + apply Z.ltb_ge in Hlt. unfold Py.digits.
      rewrite digits_aux_unfold.
      assert (Hlt' : (n <? 10) = false) by (apply Z.ltb_ge; lia).
      rewrite Hlt'.
      assert (Hf : exists f, Z.to_nat (Z.log2 n) = S f).
      { assert (3 <= Z.log2 n) by (change 3 with (Z.log2 8); apply Z.log2_le_mono; lia).
        exists (Z.to_nat (Z.log2 n) - 1)%nat. lia. }
      destruct Hf as [f ->]. rewrite digits_aux_unfold.
      destruct (n / 10 <? 10); [ simpl; lia | ].
      etransitivity; [ | apply digits_aux_length ]. simpl. lia.
Qed.

(** Two characters exactly up to 99, more from 100 on. *)
Lemma format_02d_width n :
  (0 <= n <= 99 -> String.length (Py.format_02d n) = 2%nat)
  /\ (100 <= n -> (3 <= String.length (Py.format_02d n))%nat).
Proof.
  split.
  - intros Hn. unfold Py.format_02d.
    assert (Hneg : (n <? 0) = false) by (apply Z.ltb_ge; lia). rewrite Hneg.
    destruct (n <? 10) eqn:Hlt.
    + unfold Py.digits. rewrite digits_aux_unfold, Hlt. reflexivity.
    + apply Z.ltb_ge in Hlt. unfold Py.digits. rewrite digits_aux_unfold.
      assert (Hlt' : (n <? 10) = false) by (apply Z.ltb_ge; lia). rewrite Hlt'.
      assert (Hf : exists f, Z.to_nat (Z.log2 n) = S f).
      { assert (3 <= Z.log2 n) by (change 3 with (Z.log2 8); apply Z.log2_le_mono; lia).
        exists (Z.to_nat (Z.log2 n) - 1)%nat. lia. }
      destruct Hf as [f ->]. rewrite digits_aux_unfold.
      assert (Hq : (n / 10 <? 10) = true).
      { apply Z.ltb_lt. apply Z.div_lt_upper_bound; lia. }
      rewrite Hq. reflexivity.
  - intros Hn. unfold Py.format_02d.
    assert (Hneg : (n <? 0) = false) by (apply Z.ltb_ge; lia). rewrite Hneg.
    assert (Hlt : (n <? 10) = false) by (apply Z.ltb_ge; lia). rewrite Hlt.
    unfold Py.digits. rewrite digits_aux_unfold, Hlt.
    assert (Hf : exists f, Z.to_nat (Z.log2 n) = S (S f)).
    { assert (6 <= Z.log2 n) by (change 6 with (Z.log2 64); apply Z.log2_le_mono; lia).
      exists (Z.to_nat (Z.log2 n) - 2)%nat. lia. }
    destruct Hf as [f ->]. rewrite digits_aux_unfold.
    assert (Hq : (n / 10 <? 10) = false).
    { apply Z.ltb_ge. apply Z.div_le_lower_bound; lia. }
    rewrite Hq. rewrite digits_aux_unfold.
    destruct (n / 10 / 10 <? 10); [ simpl; lia | ].
    etransitivity; [ | apply digits_aux_length ]. simpl. lia.
Qed.

End PyFacts.

(** * Workflow transitions *)






(** * Craftsman response and reassignment *)

(** The view never reads [request.user]: two actors get the same
    answer and leave the same store. *)
Lemma craftsman_response_same_for_all (D : Deployment) (db : DB) (u1 u2 : User.t)
    (data : gmap string Value) :
  CraftsmanOrderResponse.post D db u1 data = CraftsmanOrderResponse.post D db u2 data.
Proof. reflexivity. Qed.

(** C4, on the code.  Order 001 is assigned to craftsman C1 (key 1).
    A user who is not that craftsman (key 99) sends accept, and in a
    second run reject: both are answered 200 and both change the order,
    where the claim asks for a refusal without mutation. *)
Theorem craftsman_response_by_stranger :
  let db := Sample.assigned_to_C1 Sample.plain in
  let accepted :=
    CraftsmanOrderResponse.post Sample.plain db Sample.stranger (Sample.on_order_001 "accept") in
  let rejected :=
    CraftsmanOrderResponse.post Sample.sql db Sample.stranger (Sample.on_order_001 "reject") in
  snapshot db 1 = Some ("assigned", Some 1)
  /\ User.id Sample.stranger <> 1
  /\ code (fst accepted) = HTTP_200_OK
  /\ snapshot (snd accepted) 1 = Some ("in-process", Some 1)
  /\ code (fst rejected) = HTTP_200_OK
  /\ snapshot (snd rejected) 1 = Some ("rejected", None).
Proof. vm_compute. repeat split; try reflexivity. discriminate. Qed.

(** C1, on the code.  Order 001 is assigned to C1 (key 1), the first
    CRAFTSMAN of the directory; C2 (key 2) is the second.  C1 rejects.
    The exclusion list is read from the [craftsman] column of the
    rejected rows, which the view has just set to null, so it is
    [None] alone and C1 is not in it.  Where a null equals no key the
    order goes back to C1, the craftsman who rejected it; where a null
    makes [NOT IN] unknown nobody is selected although C2 is eligible.
    The claim asks for C2 in both cases. *)
Theorem rejection_does_not_exclude_rejecter :
  let db := Sample.assigned_to_C1 Sample.plain in
  let rejected_row :=
    Order.with_craftsman None
      (Order.with_rejected_by (Some 1)
         (Order.with_status "rejected"
            (Order.mk 1 "001" "assigned" (Some 3) (Some 1) None
               (Some (Sample.day + 1)) (Some Sample.day)
               (VStr "") (Some 11) (VStr "") (Some 12) VNull None ∅))) in
  let after D :=
    snd (CraftsmanOrderResponse.post D db Sample.user_C1 (Sample.on_order_001 "reject")) in
  orders db = [Order.with_craftsman (Some 1) (Order.with_rejected_by None
                 (Order.with_status "assigned" rejected_row))]
  /\ CraftsmanOrderResponse.get_next_available_craftsman Sample.plain
       (Orm.save rejected_row db) rejected_row = Some Sample.C1
  /\ CraftsmanOrderResponse.get_next_available_craftsman Sample.sql
       (Orm.save rejected_row db) rejected_row = None
  /\ List.map (fun o => (Order.status o, Order.craftsman o, Order.rejected_by o))
       (orders (after Sample.plain)) = [("assigned", Some 1, Some 1)]
  /\ List.map (fun o => (Order.status o, Order.craftsman o, Order.rejected_by o))
       (orders (after Sample.sql)) = [("rejected", None, Some 1)].
Proof. vm_compute. repeat split; reflexivity. Qed.

(** C3, on the code.  The scenario of the specification, step by
    step, with the response code and the status and craftsman of the
    order after each step.  Up to the assignment to C1 the run is the
    one the scenario tells.  When C1 rejects, the order is not handed
    to C2: it comes back to C1 where a null equals no key, and from
    then on the requests sent in the name of C2 act on an order that is
    C1's; where a null makes [NOT IN] unknown the order stays rejected
    and the three remaining steps are refused. *)
Theorem scenario_run :
  serve_observing Sample.plain (empty_store Sample.directory) Sample.scenario 1
  = [ (201, Some ("pending", None));
      (200, Some ("in-process", None));
      (200, Some ("verified", None));
      (200, Some ("assigned", Some 1));
      (200, Some ("assigned", Some 1));
      (200, Some ("in-process", Some 1));
      (200, Some ("awaiting-approval", Some 1));
      (200, Some ("complete", Some 1)) ]
  /\ serve_observing Sample.sql (empty_store Sample.directory) Sample.scenario 1
  = [ (201, Some ("pending", None));
      (200, Some ("in-process", None));
      (200, Some ("verified", None));
      (200, Some ("assigned", Some 1));
      (200, Some ("rejected", None));
      (400, Some ("rejected", None));
      (400, Some ("rejected", None));
      (400, Some ("rejected", None)) ]
  /\ List.map Order.order_no
       (orders (snd (serve Sample.sql (empty_store Sample.directory) [Sample.create])))
     = ["001"].
Proof. vm_compute. repeat split; reflexivity. Qed.

(** * Validation of a creation request *)


Lemma writable_due_date : In "due_date" OrderSerializer.writable_fields.
Proof. vm_compute. tauto. Qed.

Lemma order_date_not_writable : ~ In "order_date" OrderSerializer.writable_fields.
Proof.
  vm_compute. intros H.
  repeat (destruct H as [H | H]; [ discriminate H | ]). exact H.
Qed.

Section InternalValue.

Variables (db : DB) (today : Z) (data : gmap string Value).


(** A value that comes out was put in under a writable name. *)
Lemma internal_value_keys fs m k :
  OrderSerializer.to_internal_value_of fs db today data = Pass m ->
  is_Some (m !! k) -> In k fs /\ is_Some (data !! k).
Proof.
  revert m. induction fs as [| f rest IH]; intros m; simpl.
  - intros [= <-] [v Hv]. rewrite lookup_empty in Hv. discriminate Hv.
  - destruct (data !! f) as [v |] eqn:Hf.
    + destruct (OrderSerializer.run_field db today f v) as [v' | e | x];
        destruct (OrderSerializer.to_internal_value_of rest db today data)
          as [m' | es | y]; try discriminate.
      intros [= <-] Hk.
      destruct (decide (f = k)) as [-> | Hne]; [ rewrite Hf; eauto | ].
      rewrite lookup_insert_ne in Hk by exact Hne.
      destruct (IH m' eq_refl Hk). auto.
    + intros Hm Hk. destruct (IH m Hm Hk). auto.
Qed.


(** A field error stops the request: the outcome carries the error,
    unless an exception was raised. *)
Lemma internal_value_error fs f v e :
  In f fs -> data !! f = Some v ->
  OrderSerializer.run_field db today f v = ValidationError e ->
  (exists es, OrderSerializer.to_internal_value_of fs db today data = ValidationError es
              /\ incl e es)
  \/ exists x, OrderSerializer.to_internal_value_of fs db today data = Raised x.
Proof.
  induction fs as [| g rest IH]; simpl; [ tauto | ].
  intros Hin Hf He.
  destruct (decide (g = f)) as [-> | Hne].
  - rewrite Hf, He.
    destruct (OrderSerializer.to_internal_value_of rest db today data)
      as [m' | es | y]; eauto using incl_refl, incl_appl.
  - destruct Hin as [-> | Hin]; [ congruence | ].
    destruct (IH Hin Hf He) as [(es & -> & Hes) | (x & ->)].
    + destruct (data !! g) as [w |]; [ | eauto ].
      destruct (OrderSerializer.run_field db today g w) as [w' | e' | x];
        eauto using incl_appr.
    + destruct (data !! g) as [w |]; [ | eauto ].
      destruct (OrderSerializer.run_field db today g w) as [w' | e' | x']; eauto.
Qed.


(** [validate] never sees an [order_date]: the field is read-only and
    is not copied from the request. *)
Lemma run_validation_is_internal_value :
  OrderSerializer.run_validation db today data
  = OrderSerializer.to_internal_value db today data.
Proof.
  unfold OrderSerializer.run_validation, OrderSerializer.to_internal_value.
  destruct (OrderSerializer.to_internal_value_of OrderSerializer.writable_fields
              db today data) as [m | es | x] eqn:Hm; try reflexivity.
  unfold OrderSerializer.validate.
  destruct (m !! "order_date") as [w |] eqn:Hw; [ | reflexivity ].
  exfalso.
  destruct (internal_value_keys OrderSerializer.writable_fields m "order_date" Hm)
    as [Hin _]; [ rewrite Hw; eexists; reflexivity | ].
  exact (order_date_not_writable Hin).
Qed.

End InternalValue.

(** The conversion reads the request at the writable names only. *)
Lemma internal_value_ext fs db today (data1 data2 : gmap string Value) :
  (forall f, In f fs -> data1 !! f = data2 !! f) ->
  OrderSerializer.to_internal_value_of fs db today data1
  = OrderSerializer.to_internal_value_of fs db today data2.
Proof.
  induction fs as [| g rest IH]; intros Hext; simpl; [ reflexivity | ].
  rewrite (Hext g) by (left; reflexivity).
  rewrite IH by (intros f Hf; apply Hext; right; exact Hf).
  reflexivity.
Qed.

(** A request that also carries an [order_date] is treated as the same
    request without it. *)
Lemma supplied_order_date_ignored (D : Deployment) (db : DB) (today : Z)
    (data : gmap string Value) (v : Value) :
  OrderCreateView.post D db today (<["order_date" := v]> data)
  = OrderCreateView.post D db today (base.delete "order_date" data).
Proof.
  unfold OrderCreateView.post. rewrite !run_validation_is_internal_value.
  unfold OrderSerializer.to_internal_value.
  rewrite (internal_value_ext OrderSerializer.writable_fields db today
             (<["order_date" := v]> data) (base.delete "order_date" data));
    [ reflexivity | ].
  intros f Hf.
  assert (Hne : "order_date" <> f)
    by (intros <-; exact (order_date_not_writable Hf)).
  rewrite lookup_insert_ne, lookup_delete_ne by exact Hne. reflexivity.
Qed.

Lemma post_not_created_unchanged (D : Deployment) (db : DB) (today : Z)
    (data : gmap string Value) (r : Checked (gmap string Value)) :
  OrderSerializer.to_internal_value_of OrderSerializer.writable_fields db today data = r ->
  (forall m, r <> Pass m) ->
  OrderCreateView.post D db today data
  = (match r with
     | ValidationError es => errors_response es
     | Raised x => server_error x
     | Pass _ => not_found
     end, db).
Proof.
  intros Hr Hnp. unfold OrderCreateView.post.
  rewrite run_validation_is_internal_value. unfold OrderSerializer.to_internal_value.
  rewrite Hr. destruct r as [m | es | x]; [ | reflexivity | reflexivity ].
  exfalso. exact (Hnp m eq_refl).
Qed.



(** C9, on the code.  A creation request that supplies an [order_date]
    is not refused: [order_date] is read-only, so the value never
    reaches [validate], whose guard cannot fire; the order is created
    as if the key were absent and [order_date] is the day of creation,
    whether the model stamps it or the [post_save] receiver does. *)
Theorem creation_with_order_date_accepted :
  let data := <["order_date" := VDate 5]> Sample.new_order in
  let db := empty_store Sample.directory in
  let auto := mkDeployment true true true in
  code (fst (OrderCreateView.post Sample.sql db Sample.day data)) = HTTP_201_CREATED
  /\ List.map (fun o => (Order.order_no o, Order.status o, Order.order_date o))
       (orders (snd (OrderCreateView.post Sample.sql db Sample.day data)))
     = [("001", "pending", Some Sample.day)]
  /\ List.map (fun o => (Order.order_no o, Order.status o, Order.order_date o))
       (orders (snd (OrderCreateView.post auto db Sample.day data)))
     = [("001", "pending", Some Sample.day)]
  /\ OrderCreateView.post Sample.sql db Sample.day data
     = OrderCreateView.post Sample.sql db Sample.day Sample.new_order.
Proof. vm_compute. repeat split; reflexivity. Qed.

(** * Creation *)

Lemma post_validated (D : Deployment) (db : DB) (today : Z)
    (data m : gmap string Value) :
  OrderSerializer.to_internal_value_of OrderSerializer.writable_fields db today data
  = Pass m ->
  OrderCreateView.post D db today data
  = match OrderSerializer.create D db today (<["status" := VStr "pending"]> m) with
    | (Pass instance, db') =>
        (mkResponse HTTP_201_CREATED [("order_no", VStr (Order.order_no instance))], db')
    | (ValidationError errors, db') => (errors_response errors, db')
    | (Raised x, db') => (server_error x, db')
    end.
Proof.
  intros Hm. unfold OrderCreateView.post.
  rewrite run_validation_is_internal_value. unfold OrderSerializer.to_internal_value.
  rewrite Hm. reflexivity.
Qed.

(** What a successful [create] has done: the presence check passed,
    the new row is the last one, it carries the computed number and
    the day of creation, and the sequence advanced by one. *)
Lemma create_pass (D : Deployment) (db : DB) (today : Z) (vd : gmap string Value)
    (instance : Order.t) (db' : DB) :
  OrderSerializer.create D db today vd = (Pass instance, db') ->
  exists b row,
    vd !! "bp_code" = Some b
    /\ (b = VNull -> order_bp_code_null D = true)
    /\ Order.order_no instance = OrderSerializer.new_order_no db
    /\ Order.order_no row = OrderSerializer.new_order_no db
    /\ Order.id row = order_seq db + 1
    /\ Order.order_date row = Some today
    /\ Order.bp_code row = match b with VRef p => Some p | _ => None end
    /\ orders db'
       = ((if order_date_auto D then orders db
           else List.map (fun r => if Order.id r =? order_seq db + 1 then row else r)
                  (orders db))
          ++ [row])%list
    /\ partners db' = partners db
    /\ order_seq db' = order_seq db + 1.
Proof.
  unfold OrderSerializer.create.
  destruct (vd !! "bp_code") as [b |] eqn:Hb; [ | discriminate ].
  set (vd' := <["order_no" := VStr (OrderSerializer.new_order_no db)]> vd).
  assert (Hno : vd' !! "order_no" = Some (VStr (OrderSerializer.new_order_no db)))
    by apply lookup_insert_eq.
  assert (Hbp : vd' !! "bp_code" = Some b)
    by (unfold vd'; rewrite lookup_insert_ne by discriminate; exact Hb).
  assert (Hgo :
    (let '(instance, db1) := Orm.insert (OrderSerializer.row_of D today vd') db in
     (Pass instance, OrderSerializer.set_order_date today instance true db1))
    = (Pass instance, db') ->
    exists row,
      Order.order_no instance = OrderSerializer.new_order_no db
      /\ Order.order_no row = OrderSerializer.new_order_no db
      /\ Order.id row = order_seq db + 1
      /\ Order.order_date row = Some today
      /\ Order.bp_code row = match b with VRef p => Some p | _ => None end
      /\ orders db'
       = ((if order_date_auto D then orders db
           else List.map (fun r => if Order.id r =? order_seq db + 1 then row else r)
                  (orders db))
          ++ [row])%list
      /\ partners db' = partners db
      /\ order_seq db' = order_seq db + 1).
  { unfold Orm.insert, OrderSerializer.set_order_date.
    set (r0 := OrderSerializer.row_of D today vd' (order_seq db + 1)).
    assert (Hr0 : Order.id r0 = order_seq db + 1
                  /\ Order.order_no r0 = OrderSerializer.new_order_no db
                  /\ Order.bp_code r0 = match b with VRef p => Some p | _ => None end
                  /\ Order.order_date r0 = if order_date_auto D then Some today else None).
    { unfold r0, OrderSerializer.row_of. cbn [Order.id Order.order_no Order.bp_code
        Order.order_date]. rewrite Hno, Hbp. repeat split; reflexivity. }
    destruct Hr0 as (Hid & Hn & Hbc & Hod).
    rewrite Hod. destruct (order_date_auto D); intros [= <- <-].
    - exists r0. repeat split; assumption || reflexivity.
    - exists (Order.with_order_date (Some today) r0).
      unfold Orm.save. cbn [orders partners order_seq Order.with_order_date
        Order.id Order.order_no Order.bp_code Order.order_date].
      repeat split; try assumption; try reflexivity.
      rewrite List.map_app. cbn [List.map]. rewrite Hid, Z.eqb_refl. reflexivity. }
  intros H.
  assert (Hnull : b = VNull -> order_bp_code_null D = true).
  { intros ->. destruct (order_bp_code_null D); [ reflexivity | discriminate H ]. }
  assert (H' :
    (let '(instance, db1) := Orm.insert (OrderSerializer.row_of D today vd') db in
     (Pass instance, OrderSerializer.set_order_date today instance true db1))
    = (Pass instance, db')).
  { destruct b, (order_bp_code_null D); try exact H; discriminate H. }
  destruct (Hgo H') as (row & Hrow). exists b, row.
  split; [ reflexivity | ]. split; [ exact Hnull | exact Hrow ].
Qed.





(** * Order numbers *)

(** C6, as stated, fails on the first order: with no prior order the
    number is the three-character string 001, not the count plus one
    padded to two digits, which is 01. *)
Lemma first_order_no_is_001 :
  let db := empty_store Sample.directory in
  spec_order_no db = "01"
  /\ OrderSerializer.new_order_no db = "001"
  /\ fst (OrderCreateView.post Sample.sql db Sample.day Sample.new_order)
     = mkResponse HTTP_201_CREATED [("order_no", VStr "001")]
  /\ OrderSerializer.new_order_no db <> spec_order_no db.
Proof. vm_compute. repeat split; try reflexivity. discriminate. Qed.

(** C6, amended.  A successful creation stores the new order last and
    answers with its number.  With no prior order the number is 001.
    Otherwise it is the successor of the last order's number parsed as
    an integer, and when that does not parse the count of orders plus
    one; in both cases printed in decimal, zero filled to two
    characters: it reads back as the same integer, has at least two
    characters, exactly two up to 99 and more from 100 on. *)
Theorem order_no_assignment (D : Deployment) (db : DB) (today : Z)
    (data : gmap string Value) :
  code (fst (OrderCreateView.post D db today data)) = HTTP_201_CREATED ->
  let new_no := OrderSerializer.new_order_no db in
  (exists row, last (orders (snd (OrderCreateView.post D db today data))) = Some row
               /\ Order.order_no row = new_no)
  /\ fst (OrderCreateView.post D db today data)
     = mkResponse HTTP_201_CREATED [("order_no", VStr new_no)]
  /\ (last (orders db) = None -> new_no = "001")
  /\ (forall o, last (orders db) = Some o ->
      exists k, new_no = Py.format_02d k
                /\ match Py.int (Order.order_no o) with
                   | Some n => k = n + 1
                   | None => k = Z.of_nat (List.length (orders db)) + 1
                   end
                /\ Py.int new_no = Some k
                /\ (2 <= String.length new_no)%nat
                /\ (0 <= k <= 99 -> String.length new_no = 2%nat)
                /\ (100 <= k -> (3 <= String.length new_no)%nat)).
Proof.
  intros Hcode new_no.
  assert (Hview :
    (exists row, last (orders (snd (OrderCreateView.post D db today data))) = Some row
                 /\ Order.order_no row = new_no)
    /\ fst (OrderCreateView.post D db today data)
       = mkResponse HTTP_201_CREATED [("order_no", VStr new_no)]).
  { destruct (OrderSerializer.to_internal_value_of OrderSerializer.writable_fields
                db today data) as [m | es | x] eqn:Hm.
    - rewrite (post_validated D db today data m Hm) in *.
      destruct (OrderSerializer.create D db today (<["status" := VStr "pending"]> m))
        as [[instance | errors | y] db'] eqn:Hc; simpl in Hcode; try discriminate Hcode.
      apply create_pass in Hc
        as (b & row & _ & _ & Hi & Hrow & _ & _ & _ & Horders & _).
      simpl. split.
      + exists row. rewrite Horders, last_snoc. auto.
      + rewrite Hi. reflexivity.
    - rewrite (post_not_created_unchanged D db today data _ Hm) in Hcode by discriminate.
      discriminate Hcode.
    - rewrite (post_not_created_unchanged D db today data _ Hm) in Hcode by discriminate.
      discriminate Hcode. }
  destruct Hview as [Hrow Hresp].
  split; [ exact Hrow | ]. split; [ exact Hresp | ].
  unfold new_no, OrderSerializer.new_order_no. split.
  - intros ->. reflexivity.
  - intros o ->.
    exists (match Py.int (Order.order_no o) with
            | Some n => n + 1
            | None => Z.of_nat (List.length (orders db)) + 1
            end).
    destruct (Py.int (Order.order_no o)) as [n |];
      (split; [ reflexivity | ]); (split; [ reflexivity | ]);
      (split; [ apply int_format_02d | ]);
      (split; [ apply format_02d_length | apply format_02d_width ]).
Qed.

Lemma order_no_assignment_witness :
  let db := snd (OrderCreateView.post Sample.sql (empty_store Sample.directory)
                   Sample.day Sample.new_order) in
  fst (OrderCreateView.post Sample.sql db Sample.day Sample.new_order)
  = mkResponse HTTP_201_CREATED [("order_no", VStr "02")].
Proof.
  cbv zeta.
  destruct (order_no_assignment Sample.sql
              (snd (OrderCreateView.post Sample.sql (empty_store Sample.directory)
                      Sample.day Sample.new_order))
              Sample.day Sample.new_order) as (_ & Hresp & _).
  - vm_compute. reflexivity.
  - rewrite Hresp. vm_compute. reflexivity.
Defined.

(** ** Numbers of the stored orders *)

Lemma ascending_weaken a b a' b' l :
  a' <= a -> b' <= b -> ascending a b l -> ascending a' b' l.
Proof.
  destruct l as [| o l]; simpl; [ trivial | ].
  intros Ha Hb (Hid & n & Hn & Hlt & Hrest).
  split; [ lia | ]. exists n. repeat split; try assumption. lia.
Qed.

Lemma ascending_In a b l x :
  ascending a b l -> In x l ->
  a < Order.id x /\ exists m, order_number x = Some m /\ b < m.
Proof.
  revert a b. induction l as [| o l IH]; intros a b; simpl; [ tauto | ].
  intros (Hid & n & Hn & Hlt & Hrest) [<- | Hin].
  - split; [ exact Hid | ]. exists n. auto.
  - destruct (IH _ _ Hrest Hin) as (Hx & m & Hm & Hlm).
    split; [ lia | ]. exists m. split; [ exact Hm | lia ].
Qed.


Lemma ascending_unique a b l x y :
  ascending a b l -> In x l -> In y l -> Order.id x = Order.id y -> x = y.
Proof.
  revert a b. induction l as [| o l IH]; intros a b; simpl; [ tauto | ].
  intros (Hid & n & Hn & Hlt & Hrest) [<- | Hx] [<- | Hy] Hxy.
  - reflexivity.
  - destruct (ascending_In _ _ _ _ Hrest Hy) as (Hlt' & _). lia.
  - destruct (ascending_In _ _ _ _ Hrest Hx) as (Hlt' & _). lia.
  - exact (IH _ _ Hrest Hx Hy Hxy).
Qed.

Lemma ascending_filter p a b l :
  ascending a b l -> ascending a b (List.filter p l).
Proof.
  revert a b. induction l as [| o l IH]; intros a b; simpl; [ trivial | ].
  intros (Hid & n & Hn & Hlt & Hrest). destruct (p o); simpl.
  - split; [ exact Hid | ]. exists n. auto.
  - apply IH. apply (ascending_weaken (Order.id o) n); [ lia | lia | exact Hrest ].
Qed.

Lemma ascending_map f a b l :
  (forall r, In r l -> Order.id (f r) = Order.id r
                       /\ Order.order_no (f r) = Order.order_no r) ->
  ascending a b l -> ascending a b (List.map f l).
Proof.
  revert a b. induction l as [| o l IH]; intros a b Hf; simpl; [ trivial | ].
  intros (Hid & n & Hn & Hlt & Hrest).
  destruct (Hf o (or_introl eq_refl)) as [Hfi Hfn].
  rewrite Hfi. split; [ exact Hid | ]. exists n.
  unfold order_number in *. rewrite Hfn.
  repeat split; try assumption.
  apply IH; [ | exact Hrest ]. intros r Hr. apply Hf. right. exact Hr.
Qed.

Lemma ascending_snoc a b l o n :
  ascending a b l ->
  order_number o = Some n ->
  match last l with
  | Some r => Order.id r < Order.id o
              /\ exists m, order_number r = Some m /\ m < n
  | None => a < Order.id o /\ b < n
  end ->
  ascending a b (l ++ [o]).
Proof.
  revert a b. induction l as [| r l IH]; intros a b; simpl.
  - intros _ Hn [Ha Hb]. split; [ exact Ha | ]. exists n. auto.
  - intros (Hid & k & Hk & Hlt & Hrest) Hn Hlast.
    split; [ exact Hid | ]. exists k. repeat split; try assumption.
    apply IH; [ exact Hrest | exact Hn | ].
    destruct l as [| r' l'].
    + simpl in *. destruct Hlast as (Hro & m & Hm & Hmn).
      split; [ exact Hro | ]. congruence.
    + rewrite last_cons_cons in Hlast.
      destruct (last (r' :: l')) as [x |] eqn:Hx; [ exact Hlast | ].
      apply last_None in Hx. discriminate Hx.
Qed.

Lemma head_filter_In {A : Type} (p : A -> bool) (l : list A) (x : A) :
  head (List.filter p l) = Some x -> In x l.
Proof.
  intros H. assert (Hin : In x (List.filter p l)).
  { destruct (List.filter p l); [ discriminate H | ].
    injection H as ->. left. reflexivity. }
  apply filter_In in Hin. tauto.
Qed.

Lemma get_filter_In {A : Type} (p : A -> bool) (l : list A) (x : A) :
  Orm.get (List.filter p l) = Orm.Found x -> In x l.
Proof.
  intros H. apply (head_filter_In p).
  destruct (List.filter p l) as [| y [| z l']]; try discriminate H.
  injection H as ->. reflexivity.
Qed.

Lemma get_by_order_no_In v db x :
  get_by_order_no v db = Orm.Found x -> In x (orders db).
Proof.
  unfold get_by_order_no. destruct (v ≫= char_key); [ | discriminate ].
  apply get_filter_In.
Qed.

Lemma save_well_numbered db order o' :
  well_numbered db -> In order (orders db) -> keeps_number order o' ->
  well_numbered (Orm.save o' db).
Proof.
  intros (Hasc & Hall & Hseq) Hin (Hid & Hno & Hod).
  assert (Hf : forall r, In r (orders db) ->
               keeps_number r (if Order.id r =? Order.id o' then o' else r)).
  { intros r Hr. destruct (Z.eqb_spec (Order.id r) (Order.id o')) as [Heq | _].
    - assert (r = order) as ->
        by (apply (ascending_unique _ _ _ _ _ Hasc Hr Hin); congruence).
      repeat split; assumption.
    - repeat split; reflexivity. }
  unfold well_numbered, Orm.save. simpl. repeat split.
  - apply ascending_map; [ | exact Hasc ].
    intros r Hr. destruct (Hf r Hr) as (H1 & H2 & _). split; assumption.
  - apply List.Forall_forall. intros x Hx. apply in_map_iff in Hx as (r & <- & Hr).
    rewrite (proj1 (Hf r Hr)).
    rewrite List.Forall_forall in Hall. apply Hall, Hr.
  - exact Hseq.
Qed.

Lemma save_In db order o' :
  In order (orders db) -> Order.id o' = Order.id order -> In o' (orders (Orm.save o' db)).
Proof.
  intros Hin Hid. unfold Orm.save. simpl. apply in_map_iff.
  exists order. split; [ | exact Hin ].
  rewrite <- Hid, Z.eqb_refl. reflexivity.
Qed.

Lemma delete_well_numbered db o :
  well_numbered db -> well_numbered (Orm.delete o db).
Proof.
  intros (Hasc & Hall & Hseq). unfold well_numbered, Orm.delete. simpl.
  repeat split.
  - apply ascending_filter, Hasc.
  - apply List.Forall_forall. intros x Hx. apply filter_In in Hx as [Hx _].
    rewrite List.Forall_forall in Hall. apply Hall, Hx.
  - exact Hseq.
Qed.

Lemma create_well_numbered D db today vd instance db' :
  well_numbered db ->
  OrderSerializer.create D db today vd = (Pass instance, db') ->
  well_numbered db'.
Proof.
  intros (Hasc & Hall & Hseq) Hc.
  apply create_pass in Hc
    as (b & row & _ & _ & _ & Hno & Hid & _ & _ & Horders & _ & Hseq').
  assert (Hsame : (if order_date_auto D then orders db
                   else List.map (fun r => if Order.id r =? order_seq db + 1
                                           then row else r) (orders db))
                  = orders db).
  { destruct (order_date_auto D); [ reflexivity | ].
    rewrite <- (List.map_id (orders db)) at 2. apply List.map_ext_in.
    intros r Hr. rewrite List.Forall_forall in Hall. specialize (Hall r Hr).
    destruct (Z.eqb_spec (Order.id r) (order_seq db + 1)); [ lia | reflexivity ]. }
  rewrite Hsame in Horders.
  assert (Hnum : exists n, order_number row = Some n
                 /\ match last (orders db) with
                    | Some r => exists m, order_number r = Some m /\ m < n
                    | None => 0 < n
                    end).
  { unfold order_number. rewrite Hno. unfold OrderSerializer.new_order_no.
    destruct (last (orders db)) as [r |] eqn:Hlast.
    - apply last_Some in Hlast as [l' Hl'].
      assert (Hr : In r (orders db)) by (rewrite Hl'; apply in_or_app; right; left; reflexivity).
      destruct (ascending_In _ _ _ _ Hasc Hr) as (_ & m & Hm & _).
      unfold order_number in Hm. rewrite Hm.
      exists (m + 1). rewrite int_format_02d. split; [ reflexivity | ].
      exists m. split; [ reflexivity | lia ].
    - exists 1. split; [ reflexivity | lia ]. }
  destruct Hnum as (n & Hn & Hbound).
  unfold well_numbered. rewrite Horders, Hseq'. repeat split.
  - apply (ascending_snoc _ _ _ _ n Hasc Hn).
    destruct (last (orders db)) as [r |] eqn:Hlast.
    + split; [ | exact Hbound ].
      apply last_Some in Hlast as [l' Hl'].
      assert (Hr : In r (orders db)) by (rewrite Hl'; apply in_or_app; right; left; reflexivity).
      rewrite List.Forall_forall in Hall. specialize (Hall r Hr). lia.
    + split; lia.
  - apply List.Forall_app. split.
    + eapply List.Forall_impl; [ | exact Hall ]. simpl. intros. lia.
    + constructor; [ lia | constructor ].
  - lia.
Qed.

(** Every request keeps the stored orders numbered in ascending
    order. *)
Lemma dispatch_well_numbered D db r :
  well_numbered db -> well_numbered (snd (dispatch D db r)).
Proof.
  intros Hw. destruct r as [who day act data]. unfold dispatch. simpl.
  destruct act.
  - (* create *)
    destruct (OrderSerializer.to_internal_value_of OrderSerializer.writable_fields
                db day data) as [m | es | x] eqn:Hm.
    + rewrite (post_validated D db day data m Hm).
      destruct (OrderSerializer.create D db day (<["status" := VStr "pending"]> m))
        as [[instance | errors | y] db'] eqn:Hc; simpl.
      * exact (create_well_numbered _ _ _ _ _ _ Hw Hc).
      * unfold OrderSerializer.create in Hc.
        destruct (_ !! "bp_code") as [[] |] in Hc;
          destruct (order_bp_code_null D) in Hc; simpl in Hc; congruence.
      * unfold OrderSerializer.create in Hc.
        destruct (_ !! "bp_code") as [[] |] in Hc;
          destruct (order_bp_code_null D) in Hc; simpl in Hc; congruence.
    + rewrite (post_not_created_unchanged D db day data _ Hm) by discriminate. exact Hw.
    + rewrite (post_not_created_unchanged D db day data _ Hm) by discriminate. exact Hw.
  - (* update *)
    unfold OrderDetailView.put.
    destruct (Orm.get _) as [o | |] eqn:Hget; try exact Hw.
    apply get_filter_In in Hget.
    destruct (OrderSerializer.run_validation db day data) as [m | es | x];
      try exact Hw.
    simpl. unfold OrderSerializer.update.
    apply (save_well_numbered db o); [ exact Hw | exact Hget | ].
    destruct (m !! "bp_code") as [[] |]; destruct (m !! "due_date") as [[] |];
      repeat split; reflexivity.
  - unfold KeyUserApprovalView.post.
    destruct (head _) as [o |] eqn:Hget; [ | exact Hw ].
    apply head_filter_In in Hget.
    destruct (negb _); [ exact Hw | ].
    apply (save_well_numbered db o); [ exact Hw | exact Hget | repeat split; reflexivity ].
  - unfold KeyUserApprovalView.delete.
    destruct (head _) as [o |] eqn:Hget; [ | exact Hw ].
    destruct (negb _); [ exact Hw | ].
    apply delete_well_numbered, Hw.
  - unfold AdminVerificationView.post.
    destruct (head _) as [o |] eqn:Hget; [ | exact Hw ].
    apply head_filter_In in Hget.
    destruct (negb _); [ exact Hw | ].
    apply (save_well_numbered db o); [ exact Hw | exact Hget | repeat split; reflexivity ].
  - unfold AdminVerificationView.delete.
    destruct (head _) as [o |] eqn:Hget; [ | exact Hw ].
    apply head_filter_In in Hget.
    destruct (negb _); [ exact Hw | ].
    apply (save_well_numbered db o); [ exact Hw | exact Hget | repeat split; reflexivity ].
  - unfold AssignOrdersToCraftsman.post.
    destruct (OrderAssignmentSerializer.run_validation db data) as [v | es | x];
      try exact Hw.
    destruct (PyStr.split_dash _) as [[code_part name_part] |]; [ | exact Hw ].
    destruct (Orm.get _) as [c | |]; try exact Hw.
    destruct (head _) as [o |] eqn:Hget; [ | exact Hw ].
    apply head_filter_In in Hget.
    apply (save_well_numbered db o); [ exact Hw | exact Hget | ].
    destruct (OrderAssignmentSerializer.due_date v); repeat split; reflexivity.
  - unfold CraftsmanOrderResponse.post.
    destruct (OrderActionSerializer.run_validation data) as [v | es | x];
      try exact Hw.
    destruct (Orm.get _) as [o | |] eqn:Hget; try exact Hw.
    apply get_filter_In in Hget.
    destruct (negb _); [ exact Hw | ].
    destruct (String.eqb (OrderActionSerializer.action v) "accept").
    { assert (Hs : well_numbered (Orm.save (Order.with_status "in-process" o) db))
        by (apply (save_well_numbered db o); [ exact Hw | exact Hget | repeat split; reflexivity ]).
      destruct (_ ≫= _); exact Hs. }
    destruct (String.eqb (OrderActionSerializer.action v) "reject"); [ | exact Hw ].
    set (o1 := Order.with_craftsman None
                 (Order.with_rejected_by (Order.craftsman o)
                    (Order.with_status "rejected" o))).
    assert (Hs : well_numbered (Orm.save o1 db))
      by (apply (save_well_numbered db o); [ exact Hw | exact Hget | repeat split; reflexivity ]).
    destruct (CraftsmanOrderResponse.get_next_available_craftsman D _ o1) as [c |];
      [ | exact Hs ].
    apply (save_well_numbered _ o1); [ exact Hs | | repeat split; reflexivity ].
    apply (save_In db o); [ exact Hget | reflexivity ].
  - unfold ApproveOrderView.post.
    destruct (get_by_order_no _ db) as [o | |] eqn:Hget; try exact Hw.
    apply get_by_order_no_In in Hget.
    destruct (negb _); [ exact Hw | ].
    apply (save_well_numbered db o); [ exact Hw | exact Hget | repeat split; reflexivity ].
  - unfold CompletedOrdersView.post.
    destruct (get_by_order_no _ db) as [o | |] eqn:Hget; try exact Hw.
    apply get_by_order_no_In in Hget.
    destruct (negb _); [ exact Hw | ].
    apply (save_well_numbered db o); [ exact Hw | exact Hget | repeat split; reflexivity ].
Qed.

Lemma serve_well_numbered D rs db :
  well_numbered db -> well_numbered (snd (serve D db rs)).
Proof.
  revert db. induction rs as [| r rs IH]; intros db Hw; simpl; [ exact Hw | ].
  pose proof (dispatch_well_numbered D db r Hw) as Hr.
  destruct (dispatch D db r) as [resp db1]. simpl in Hr.
  specialize (IH db1 Hr). destruct (serve D db1 rs) as [resps db2]. exact IH.
Qed.




(** ** The exclusion list of a rejection, in general *)

Lemma exclude_null_only D rows :
  Orm.exclude_id_in D [None] rows = if not_in_null_unknown D then [] else rows.
Proof.
  unfold Orm.exclude_id_in. simpl. rewrite andb_true_r.
  induction rows as [| b rows IH]; simpl.
  - destruct (not_in_null_unknown D); reflexivity.
  - rewrite IH. destruct (not_in_null_unknown D); reflexivity.
Qed.

(** Whatever the history of the order, at the moment the view asks for
    the next craftsman the only row with that number is the order
    itself, just saved as rejected with its craftsman set to null: the
    exclusion list is a single null.  The choice is therefore the first
    CRAFTSMAN of the whole directory, the rejecting one included, or
    nobody where a null makes [NOT IN] unknown. *)
Lemma reassignment_ignores_history (D : Deployment) (db : DB) (no : string) (o : Order.t) :
  well_numbered db ->
  Orm.get (Orm.orders_by_order_no no db) = Orm.Found o ->
  let o1 := Order.with_craftsman None
              (Order.with_rejected_by (Order.craftsman o)
                 (Order.with_status "rejected" o)) in
  CraftsmanOrderResponse.get_next_available_craftsman D (Orm.save o1 db) o1
  = if not_in_null_unknown D then None
    else head (List.filter (fun b => String.eqb (BusinessPartner.role b) "CRAFTSMAN")
                 (partners db)).
Proof.
  intros (Hasc & _) Hget o1.
  assert (Hfil : Orm.orders_by_order_no no db = [o]).
  { destruct (Orm.orders_by_order_no no db) as [| x [| y l]]; try discriminate Hget.
    injection Hget as ->. reflexivity. }
  unfold Orm.orders_by_order_no in Hfil.
  assert (Hino : In o (List.filter (fun r => String.eqb (Order.order_no r) no)
                         (orders db))) by (rewrite Hfil; left; reflexivity).
  apply filter_In in Hino as [Hin Hno]. apply String.eqb_eq in Hno.
  assert (Honly : forall r, In r (orders db) ->
                  String.eqb (Order.order_no r) no = true -> r = o).
  { intros r Hr Hp.
    assert (Hr' : In r [o]) by (rewrite <- Hfil; apply filter_In; auto).
    destruct Hr' as [-> | []]. reflexivity. }
  assert (Huniq : forall r, In r (orders db) -> Order.id r = Order.id o -> r = o).
  { intros r Hr Hid. exact (ascending_unique _ _ _ _ _ Hasc Hr Hin Hid). }
  unfold CraftsmanOrderResponse.get_next_available_craftsman, Orm.save.
  cbn [orders partners].
  assert (Hlist :
    List.filter
      (fun r => String.eqb (Order.order_no r) (Order.order_no o1)
                && String.eqb (Order.status r) "rejected")
      (List.map (fun r => if Order.id r =? Order.id o1 then o1 else r) (orders db))
    = List.map (fun _ => o1)
        (List.filter (fun r => String.eqb (Order.order_no r) no) (orders db))).
  { clear Hfil Hin Hasc Hget. revert Honly Huniq.
    generalize (orders db). intros l.
    induction l as [| r l IH]; intros Honly Huniq; [ reflexivity | ].
    cbn [List.map List.filter].
    rewrite IH; [ | intros x Hx; apply Honly; right; exact Hx
                    | intros x Hx; apply Huniq; right; exact Hx ].
    clear IH.
    change (Order.id o1) with (Order.id o).
    change (Order.order_no o1) with (Order.order_no o).
    destruct (Z.eqb_spec (Order.id r) (Order.id o)) as [Hid | Hid].
    - assert (r = o) as -> by (apply Huniq; [ left; reflexivity | exact Hid ]).
      change (Order.order_no o1) with (Order.order_no o).
      change (Order.status o1) with "rejected".
      rewrite Hno, String.eqb_refl. reflexivity.
    - rewrite Hno.
      destruct (String.eqb (Order.order_no r) no) eqn:Hp; [ | reflexivity ].
      exfalso. apply Hid. f_equal. apply Honly; [ left; reflexivity | exact Hp ]. }
  rewrite Hlist, Hfil. cbn [List.map]. change (Order.craftsman o1) with (@None Z).
  rewrite exclude_null_only. destruct (not_in_null_unknown D); reflexivity.
Qed.

(** ** The order date is written once *)

Lemma rows_kept_refl db : rows_kept db db.
Proof. intros o Ho. exists o. auto. Qed.

Lemma rows_kept_trans db db1 db2 :
  rows_kept db db1 -> rows_kept db1 db2 -> rows_kept db db2.
Proof.
  intros H1 H2 o2 Ho2. destruct (H2 o2 Ho2) as (o1 & Ho1 & Hid1 & Hd1).
  destruct (H1 o1 Ho1) as (o & Ho & Hid & Hd).
  exists o. repeat split; [ exact Ho | congruence | congruence ].
Qed.

Lemma rows_kept_dates day db db' : rows_kept db db' -> order_dates_kept day db db'.
Proof. intros H o Ho. left. exact (H o Ho). Qed.

Lemma save_rows_kept db order x :
  well_numbered db -> In order (orders db) -> keeps_number order x ->
  rows_kept db (Orm.save x db).
Proof.
  intros (Hasc & _) Hin (Hid & _ & Hod) o' Ho'.
  unfold Orm.save in Ho'. simpl in Ho'. apply in_map_iff in Ho' as (r & <- & Hr).
  destruct (Z.eqb_spec (Order.id r) (Order.id x)) as [Heq | _].
  - exists order. auto.
  - exists r. auto.
Qed.

Lemma delete_rows_kept db x : rows_kept db (Orm.delete x db).
Proof.
  intros o' Ho'. unfold Orm.delete in Ho'. simpl in Ho'.
  apply filter_In in Ho' as [Ho' _]. exists o'. auto.
Qed.

Lemma create_failed_unchanged D db today vd (r : Checked Order.t) db' :
  OrderSerializer.create D db today vd = (r, db') ->
  (forall i, r <> Pass i) -> db' = db.
Proof.
  unfold OrderSerializer.create.
  destruct (vd !! "bp_code") as [[] |]; destruct (order_bp_code_null D); simpl;
    intros [= <- <-] H; try reflexivity; exfalso; eapply H; reflexivity.
Qed.

Lemma create_dates_kept D db today vd instance db' :
  well_numbered db ->
  OrderSerializer.create D db today vd = (Pass instance, db') ->
  order_dates_kept today db db'.
Proof.
  intros (_ & Hall & _) Hc.
  apply create_pass in Hc
    as (b & row & _ & _ & _ & _ & Hid & Hdate & _ & Horders & _).
  intros o' Ho'. rewrite Horders in Ho'. apply in_app_or in Ho' as [Ho' | [<- | []]].
  - left. destruct (order_date_auto D); [ exists o'; auto | ].
    apply in_map_iff in Ho' as (r & <- & Hr).
    rewrite List.Forall_forall in Hall. specialize (Hall r Hr).
    destruct (Z.eqb_spec (Order.id r) (order_seq db + 1)); [ lia | ].
    exists r. auto.
  - right. split; [ lia | exact Hdate ].
Qed.

(** No request changes the order date of a stored order: after the
    request every order has the date it had before, unless the request
    has just created it, on the day of the request. *)
Lemma dispatch_order_dates_kept D db r :
  well_numbered db -> order_dates_kept (today r) db (snd (dispatch D db r)).
Proof.
  intros Hw. destruct r as [who day act data]. unfold dispatch. simpl.
  pose proof (rows_kept_dates day db db (rows_kept_refl db)) as Hsame.
  destruct act.
  - destruct (OrderSerializer.to_internal_value_of OrderSerializer.writable_fields
                db day data) as [m | es | x] eqn:Hm.
    + rewrite (post_validated D db day data m Hm).
      destruct (OrderSerializer.create D db day (<["status" := VStr "pending"]> m))
        as [[instance | errors | y] db'] eqn:Hc; simpl.
      * exact (create_dates_kept _ _ _ _ _ _ Hw Hc).
      * rewrite (create_failed_unchanged _ _ _ _ _ _ Hc) by discriminate. exact Hsame.
      * rewrite (create_failed_unchanged _ _ _ _ _ _ Hc) by discriminate. exact Hsame.
    + rewrite (post_not_created_unchanged D db day data _ Hm) by discriminate.
      exact Hsame.
    + rewrite (post_not_created_unchanged D db day data _ Hm) by discriminate.
      exact Hsame.
  - unfold OrderDetailView.put.
    destruct (Orm.get _) as [o | |] eqn:Hget; try exact Hsame.
    apply get_filter_In in Hget.
    destruct (OrderSerializer.run_validation db day data) as [m | es | x];
      try exact Hsame.
    simpl. unfold OrderSerializer.update.
    apply rows_kept_dates, (save_rows_kept db o); [ exact Hw | exact Hget | ].
    destruct (m !! "bp_code") as [[] |]; destruct (m !! "due_date") as [[] |];
      repeat split; reflexivity.
  - unfold KeyUserApprovalView.post.
    destruct (head _) as [o |] eqn:Hget; [ | exact Hsame ].
    apply head_filter_In in Hget.
    destruct (negb _); [ exact Hsame | ].
    apply rows_kept_dates, (save_rows_kept db o);
      [ exact Hw | exact Hget | repeat split; reflexivity ].
  - unfold KeyUserApprovalView.delete.
    destruct (head _) as [o |] eqn:Hget; [ | exact Hsame ].
    destruct (negb _); [ exact Hsame | ].
    apply rows_kept_dates, delete_rows_kept.
  - unfold AdminVerificationView.post.
    destruct (head _) as [o |] eqn:Hget; [ | exact Hsame ].
    apply head_filter_In in Hget.
    destruct (negb _); [ exact Hsame | ].
    apply rows_kept_dates, (save_rows_kept db o);
      [ exact Hw | exact Hget | repeat split; reflexivity ].
  - unfold AdminVerificationView.delete.
    destruct (head _) as [o |] eqn:Hget; [ | exact Hsame ].
    apply head_filter_In in Hget.
    destruct (negb _); [ exact Hsame | ].
    apply rows_kept_dates, (save_rows_kept db o);
      [ exact Hw | exact Hget | repeat split; reflexivity ].
  - unfold AssignOrdersToCraftsman.post.
    destruct (OrderAssignmentSerializer.run_validation db data) as [v | es | x];
      try exact Hsame.
    destruct (PyStr.split_dash _) as [[code_part name_part] |]; [ | exact Hsame ].
    destruct (Orm.get _) as [c | |]; try exact Hsame.
    destruct (head _) as [o |] eqn:Hget; [ | exact Hsame ].
    apply head_filter_In in Hget.
    apply rows_kept_dates, (save_rows_kept db o); [ exact Hw | exact Hget | ].
    destruct (OrderAssignmentSerializer.due_date v); repeat split; reflexivity.
  - unfold CraftsmanOrderResponse.post.
    destruct (OrderActionSerializer.run_validation data) as [v | es | x];
      try exact Hsame.
    destruct (Orm.get _) as [o | |] eqn:Hget; try exact Hsame.
    apply get_filter_In in Hget.
    destruct (negb _); [ exact Hsame | ].
    destruct (String.eqb (OrderActionSerializer.action v) "accept").
    { assert (Hs : order_dates_kept day db
                     (Orm.save (Order.with_status "in-process" o) db))
        by (apply rows_kept_dates, (save_rows_kept db o);
            [ exact Hw | exact Hget | repeat split; reflexivity ]).
      destruct (_ ≫= _); exact Hs. }
    destruct (String.eqb (OrderActionSerializer.action v) "reject"); [ | exact Hsame ].
    set (o1 := Order.with_craftsman None
                 (Order.with_rejected_by (Order.craftsman o)
                    (Order.with_status "rejected" o))).
    assert (Hk : keeps_number o o1) by (repeat split; reflexivity).
    pose proof (save_rows_kept db o o1 Hw Hget Hk) as Hs.
    pose proof (save_well_numbered db o o1 Hw Hget Hk) as Hw1.
    destruct (CraftsmanOrderResponse.get_next_available_craftsman D _ o1) as [c |];
      [ | apply rows_kept_dates, Hs ].
    apply rows_kept_dates, (rows_kept_trans db (Orm.save o1 db)); [ exact Hs | ].
    apply (save_rows_kept _ o1); [ exact Hw1 | | repeat split; reflexivity ].
    apply (save_In db o); [ exact Hget | reflexivity ].
  - unfold ApproveOrderView.post.
    destruct (get_by_order_no _ db) as [o | |] eqn:Hget; try exact Hsame.
    apply get_by_order_no_In in Hget.
    destruct (negb _); [ exact Hsame | ].
    apply rows_kept_dates, (save_rows_kept db o);
      [ exact Hw | exact Hget | repeat split; reflexivity ].
  - unfold CompletedOrdersView.post.
    destruct (get_by_order_no _ db) as [o | |] eqn:Hget; try exact Hsame.
    apply get_by_order_no_In in Hget.
    destruct (negb _); [ exact Hsame | ].
    apply rows_kept_dates, (save_rows_kept db o);
      [ exact Hw | exact Hget | repeat split; reflexivity ].
Qed.

(** * The Python helpers on concrete strings *)

Example int_001 : Py.int "001" = Some 1.
Proof. reflexivity. Qed.
Example int_spaces : Py.int "  +1_000 " = Some 1000.
Proof. reflexivity. Qed.
Example int_neg : Py.int "-7" = Some (-7).
Proof. reflexivity. Qed.
Example int_empty : Py.int "" = None.
Proof. reflexivity. Qed.
Example int_bad_underscore : Py.int "1__0" = None.
Proof. reflexivity. Qed.
Example int_trailing_underscore : Py.int "10_" = None.
Proof. reflexivity. Qed.
Example int_alpha : Py.int "A12" = None.
Proof. reflexivity. Qed.
Example format_2 : Py.format_02d 2 = "02".
Proof. reflexivity. Qed.
Example format_100 : Py.format_02d 100 = "100".
Proof. reflexivity. Qed.
Example format_neg : Py.format_02d (-5) = "-5".
Proof. reflexivity. Qed.
Example format_0 : Py.format_02d 0 = "00".
Proof. reflexivity. Qed.

(** * What every stored order satisfies *)

Lemma save_store_ok db x :
  store_ok db -> row_ok (partners db) x -> store_ok (Orm.save x db).
Proof.
  unfold store_ok, Orm.save. simpl. intros Hall Hx.
  apply List.Forall_forall. intros o Ho. apply in_map_iff in Ho as (r & <- & Hr).
  destruct (Order.id r =? Order.id x); [ exact Hx | ].
  rewrite List.Forall_forall in Hall. exact (Hall r Hr).
Qed.

Lemma delete_store_ok db x : store_ok db -> store_ok (Orm.delete x db).
Proof.
  unfold store_ok, Orm.delete. simpl. intros Hall.
  apply List.Forall_forall. intros o Ho. apply filter_In in Ho as [Ho _].
  rewrite List.Forall_forall in Hall. exact (Hall o Ho).
Qed.

Lemma store_ok_In db o : store_ok db -> In o (orders db) -> row_ok (partners db) o.
Proof. unfold store_ok. rewrite List.Forall_forall. auto. Qed.

Ltac row_ok_same H :=
  let Hs := fresh "Hs" in let Hc := fresh "Hc" in let Hr := fresh "Hr" in
  let Ha := fresh "Ha" in let Hj := fresh "Hj" in let Hp := fresh "Hp" in
  let Hd := fresh "Hd" in
  destruct H as (Hs & Hc & Hr & Ha & Hj & Hp & Hd);
  unfold row_ok; cbn;
  repeat split;
  try discriminate; try assumption;
  try (simpl; tauto).

Lemma create_store_ok D db today vd instance db' :
  store_ok db ->
  vd !! "status" = Some (VStr "pending") ->
  OrderSerializer.create D db today vd = (Pass instance, db') ->
  store_ok db'.
Proof.
  intros Hok Hst. unfold OrderSerializer.create.
  destruct (vd !! "bp_code") as [b |] eqn:Hb; [ | discriminate ].
  set (vd' := <["order_no" := VStr (OrderSerializer.new_order_no db)]> vd).
  assert (Hst' : vd' !! "status" = Some (VStr "pending"))
    by (unfold vd'; rewrite lookup_insert_ne by discriminate; exact Hst).
  assert (Hgo :
    (let '(instance, db1) := Orm.insert (OrderSerializer.row_of D today vd') db in
     (Pass instance, OrderSerializer.set_order_date today instance true db1))
    = (Pass instance, db') -> store_ok db').
  { unfold Orm.insert, OrderSerializer.set_order_date.
    set (r0 := OrderSerializer.row_of D today vd' (order_seq db + 1)).
    assert (Hr0 : Order.status r0 = "pending" /\ Order.craftsman r0 = None
                  /\ Order.rejected_by r0 = None
                  /\ Order.order_date r0 = if order_date_auto D then Some today else None).
    { unfold r0, OrderSerializer.row_of. cbn. rewrite Hst'. repeat split; reflexivity. }
    destruct Hr0 as (Hs0 & Hc0 & Hj0 & Hd0).
    assert (Hrow : forall r, Order.status r = "pending" -> Order.craftsman r = None ->
                             Order.rejected_by r = None -> Order.order_date r = Some today ->
                             row_ok (partners db) r).
    { intros r Hs Hc Hj Hd. unfold row_ok. rewrite Hs, Hc, Hj, Hd.
      repeat split; try discriminate; simpl; tauto. }
    rewrite Hd0. destruct (order_date_auto D) eqn:Hauto; intros [= <- <-].
    - unfold store_ok. simpl. apply List.Forall_app. split; [ exact Hok | ].
      constructor; [ | constructor ]. apply Hrow; assumption.
    - unfold store_ok, Orm.save. cbn [orders partners].
      apply List.Forall_forall. intros o Ho. apply in_map_iff in Ho as (r & <- & Hr).
      cbn [Order.id Order.with_order_date].
      destruct (Z.eqb_spec (Order.id r) (Order.id r0)) as [_ | Hne].
      + apply Hrow; assumption || reflexivity.
      + apply in_app_or in Hr as [Hr | [<- | []]].
        * exact (store_ok_In db r Hok Hr).
        * exfalso. apply Hne. reflexivity. }
  destruct b, (order_bp_code_null D); try discriminate; exact Hgo.
Qed.

Ltac row_fields :=
  unfold row_ok;
  cbn [Order.status Order.craftsman Order.rejected_by Order.order_date
       Order.with_status Order.with_craftsman Order.with_rejected_by
       Order.with_due_date Order.with_bp_code Order.with_details
       Order.with_order_date Order.with_key_user_approval
       Order.with_admin_approval Order.with_admin_rejection].

Ltac row_conjuncts :=
  repeat match goal with |- _ /\ _ => split end;
  try assumption;
  try (simpl; tauto);
  try (intros; discriminate).

(** Every request keeps the stored orders within the status labels,
    with craftsmen of the directory, and dated. *)
Lemma dispatch_store_ok D db r :
  store_ok db -> store_ok (snd (dispatch D db r)).
Proof.
  intros Hok. destruct r as [who day act data]. unfold dispatch. simpl.
  destruct act.
  - destruct (OrderSerializer.to_internal_value_of OrderSerializer.writable_fields
                db day data) as [m | es | x] eqn:Hm.
    + rewrite (post_validated D db day data m Hm).
      destruct (OrderSerializer.create D db day (<["status" := VStr "pending"]> m))
        as [[instance | errors | y] db'] eqn:Hc; simpl.
      * apply (create_store_ok _ _ _ _ _ _ Hok (lookup_insert_eq _ _ _) Hc).
      * rewrite (create_failed_unchanged _ _ _ _ _ _ Hc) by discriminate. exact Hok.
      * rewrite (create_failed_unchanged _ _ _ _ _ _ Hc) by discriminate. exact Hok.
    + rewrite (post_not_created_unchanged D db day data _ Hm) by discriminate. exact Hok.
    + rewrite (post_not_created_unchanged D db day data _ Hm) by discriminate. exact Hok.
  - unfold OrderDetailView.put.
    destruct (Orm.get _) as [o | |] eqn:Hget; try exact Hok.
    apply get_filter_In in Hget.
    destruct (OrderSerializer.run_validation db day data) as [m | es | x];
      try exact Hok.
    simpl. unfold OrderSerializer.update. apply save_store_ok; [ exact Hok | ].
    destruct (store_ok_In db o Hok Hget) as (Hs & Hc & Hr & Ha & Hj & Hp & Hd).
    destruct (m !! "bp_code") as [[] |]; destruct (m !! "due_date") as [[] |];
      row_fields; row_conjuncts.
  - unfold KeyUserApprovalView.post.
    destruct (head _) as [o |] eqn:Hget; [ | exact Hok ].
    apply head_filter_In in Hget.
    destruct (negb _); [ exact Hok | ].
    apply save_store_ok; [ exact Hok | ].
    destruct (store_ok_In db o Hok Hget) as (Hs & Hc & Hr & Ha & Hj & Hp & Hd).
    row_fields; row_conjuncts.
  - unfold KeyUserApprovalView.delete.
    destruct (head _) as [o |] eqn:Hget; [ | exact Hok ].
    destruct (negb _); [ exact Hok | ].
    apply delete_store_ok, Hok.
  - unfold AdminVerificationView.post.
    destruct (head _) as [o |] eqn:Hget; [ | exact Hok ].
    apply head_filter_In in Hget.
    destruct (negb _); [ exact Hok | ].
    apply save_store_ok; [ exact Hok | ].
    destruct (store_ok_In db o Hok Hget) as (Hs & Hc & Hr & Ha & Hj & Hp & Hd).
    row_fields; row_conjuncts.
  - unfold AdminVerificationView.delete.
    destruct (head _) as [o |] eqn:Hget; [ | exact Hok ].
    apply head_filter_In in Hget.
    destruct (negb _); [ exact Hok | ].
    apply save_store_ok; [ exact Hok | ].
    destruct (store_ok_In db o Hok Hget) as (Hs & Hc & Hr & Ha & Hj & Hp & Hd).
    row_fields; row_conjuncts.
  - unfold AssignOrdersToCraftsman.post.
    destruct (OrderAssignmentSerializer.run_validation db data) as [v | es | x];
      try exact Hok.
    destruct (PyStr.split_dash _) as [[code_part name_part] |]; [ | exact Hok ].
    destruct (Orm.get _) as [c | |] eqn:Hc'; try exact Hok.
    apply get_filter_In in Hc'.
    destruct (head _) as [o |] eqn:Hget; [ | exact Hok ].
    apply head_filter_In in Hget.
    apply save_store_ok; [ exact Hok | ].
    destruct (store_ok_In db o Hok Hget) as (Hs & Hc & Hr & Ha & Hj & Hp & Hd).
    destruct (OrderAssignmentSerializer.due_date v); row_fields; row_conjuncts;
      intros c0 [= <-]; exists c; auto.
  - unfold CraftsmanOrderResponse.post.
    destruct (OrderActionSerializer.run_validation data) as [v | es | x];
      try exact Hok.
    destruct (Orm.get _) as [o | |] eqn:Hget; try exact Hok.
    apply get_filter_In in Hget.
    destruct (String.eqb_spec (Order.status o) "assigned") as [Hst | _];
      [ | exact Hok ].
    destruct (store_ok_In db o Hok Hget) as (Hs & Hc & Hr & Ha & Hj & Hp & Hd).
    cbn [negb].
    destruct (String.eqb (OrderActionSerializer.action v) "accept").
    { assert (Hs1 : store_ok (Orm.save (Order.with_status "in-process" o) db))
        by (apply save_store_ok; [ exact Hok | row_fields; row_conjuncts ]).
      destruct (_ ≫= _); exact Hs1. }
    destruct (String.eqb (OrderActionSerializer.action v) "reject"); [ | exact Hok ].
    set (o1 := Order.with_craftsman None
                 (Order.with_rejected_by (Order.craftsman o)
                    (Order.with_status "rejected" o))).
    assert (Hs1 : store_ok (Orm.save o1 db)).
    { apply save_store_ok; [ exact Hok | ]. unfold o1. row_fields. row_conjuncts. }
    destruct (CraftsmanOrderResponse.get_next_available_craftsman D _ o1)
      as [c |] eqn:Hnext; [ | exact Hs1 ].
    apply save_store_ok; [ exact Hs1 | ].
    unfold CraftsmanOrderResponse.get_next_available_craftsman in Hnext.
    apply head_filter_In, filter_In in Hnext as [Hin _].
    unfold o1. row_fields. row_conjuncts.
    intros c0 [= <-]. exists c. auto.
  - unfold ApproveOrderView.post.
    destruct (get_by_order_no _ db) as [o | |] eqn:Hget; try exact Hok.
    apply get_by_order_no_In in Hget.
    destruct (negb _); [ exact Hok | ].
    apply save_store_ok; [ exact Hok | ].
    destruct (store_ok_In db o Hok Hget) as (Hs & Hc & Hr & Ha & Hj & Hp & Hd).
    row_fields; row_conjuncts.
  - unfold CompletedOrdersView.post.
    destruct (get_by_order_no _ db) as [o | |] eqn:Hget; try exact Hok.
    apply get_by_order_no_In in Hget.
    destruct (negb _); [ exact Hok | ].
    apply save_store_ok; [ exact Hok | ].
    destruct (store_ok_In db o Hok Hget) as (Hs & Hc & Hr & Ha & Hj & Hp & Hd).
    row_fields; row_conjuncts.
Qed.

Lemma dispatch_partners D db r : partners (snd (dispatch D db r)) = partners db.
Proof.
  destruct r as [who day act data]. unfold dispatch. simpl.
  destruct act.
  - destruct (OrderSerializer.to_internal_value_of OrderSerializer.writable_fields
                db day data) as [m | es | x] eqn:Hm.
    + rewrite (post_validated D db day data m Hm).
      destruct (OrderSerializer.create D db day (<["status" := VStr "pending"]> m))
        as [[instance | errors | y] db'] eqn:Hc; simpl.
      * apply create_pass in Hc as (b & row & H). tauto.
      * rewrite (create_failed_unchanged _ _ _ _ _ _ Hc) by discriminate. reflexivity.
      * rewrite (create_failed_unchanged _ _ _ _ _ _ Hc) by discriminate. reflexivity.
    + rewrite (post_not_created_unchanged D db day data _ Hm) by discriminate. reflexivity.
    + rewrite (post_not_created_unchanged D db day data _ Hm) by discriminate. reflexivity.
  - unfold OrderDetailView.put.
    destruct (Orm.get _) as [o | |]; try reflexivity.
    destruct (OrderSerializer.run_validation db day data); reflexivity.
  - unfold KeyUserApprovalView.post.
    destruct (head _); [ | reflexivity ]. destruct (negb _); reflexivity.
  - unfold KeyUserApprovalView.delete.
    destruct (head _); [ | reflexivity ]. destruct (negb _); reflexivity.
  - unfold AdminVerificationView.post.
    destruct (head _); [ | reflexivity ]. destruct (negb _); reflexivity.
  - unfold AdminVerificationView.delete.
    destruct (head _); [ | reflexivity ]. destruct (negb _); reflexivity.
  - unfold AssignOrdersToCraftsman.post.
    destruct (OrderAssignmentSerializer.run_validation db data); try reflexivity.
    destruct (PyStr.split_dash _) as [[code_part name_part] |]; [ | reflexivity ].
    destruct (Orm.get _); try reflexivity.
    destruct (head _); reflexivity.
  - unfold CraftsmanOrderResponse.post.
    destruct (OrderActionSerializer.run_validation data); try reflexivity.
    destruct (Orm.get _); try reflexivity.
    destruct (negb _); [ reflexivity | ].
    destruct (String.eqb _ "accept"); [ destruct (_ ≫= _); reflexivity | ].
    destruct (String.eqb _ "reject"); [ | reflexivity ].
    destruct (CraftsmanOrderResponse.get_next_available_craftsman _ _ _); reflexivity.
  - unfold ApproveOrderView.post.
    destruct (get_by_order_no _ db); try reflexivity. destruct (negb _); reflexivity.
  - unfold CompletedOrdersView.post.
    destruct (get_by_order_no _ db); try reflexivity. destruct (negb _); reflexivity.
Qed.

Lemma serve_store_ok D rs db : store_ok db -> store_ok (snd (serve D db rs)).
Proof.
  revert db. induction rs as [| r rs IH]; intros db Hok; simpl; [ exact Hok | ].
  pose proof (dispatch_store_ok D db r Hok) as Hr.
  destruct (dispatch D db r) as [resp db1]. simpl in Hr.
  specialize (IH db1 Hr). destruct (serve D db1 rs) as [resps db2]. exact IH.
Qed.

Lemma serve_partners D rs db : partners (snd (serve D db rs)) = partners db.
Proof.
  revert db. induction rs as [| r rs IH]; intros db; simpl; [ reflexivity | ].
  pose proof (dispatch_partners D db r) as Hr.
  destruct (dispatch D db r) as [resp db1]. simpl in Hr.
  specialize (IH db1). destruct (serve D db1 rs) as [resps db2]. simpl in *. congruence.
Qed.

Lemma empty_store_ok directory : store_ok (empty_store directory).
Proof. constructor. Qed.

Lemma empty_well_numbered directory : well_numbered (empty_store directory).
Proof. unfold well_numbered, empty_store. simpl. repeat split; [ constructor | lia ]. Qed.

(** ** Look-ups after a write *)

Lemma save_lookup_same db x :
  Orm.orders_by_pk (Order.id x) (Orm.save x db)
  = List.map (fun _ => x) (Orm.orders_by_pk (Order.id x) db).
Proof.
  unfold Orm.orders_by_pk, Orm.save. cbn [orders].
  induction (orders db) as [| r l IH]; [ reflexivity | ].
  cbn [List.map List.filter].
  destruct (Z.eqb_spec (Order.id r) (Order.id x)) as [Heq | Hne].
  - rewrite Z.eqb_refl. cbn [List.map]. rewrite IH. reflexivity.
  - destruct (Z.eqb_spec (Order.id r) (Order.id x)); [ contradiction | exact IH ].
Qed.

Lemma save_lookup_other db x pk :
  pk <> Order.id x ->
  Orm.orders_by_pk pk (Orm.save x db) = Orm.orders_by_pk pk db.
Proof.
  intros Hne. unfold Orm.orders_by_pk, Orm.save. cbn [orders].
  induction (orders db) as [| r l IH]; [ reflexivity | ].
  cbn [List.map List.filter]. rewrite IH.
  destruct (Z.eqb_spec (Order.id r) (Order.id x)) as [Heq | Hne'].
  - destruct (Z.eqb_spec (Order.id x) pk); [ congruence | ].
    destruct (Z.eqb_spec (Order.id r) pk); [ congruence | reflexivity ].
  - reflexivity.
Qed.

Lemma delete_lookup_same db x : Orm.orders_by_pk (Order.id x) (Orm.delete x db) = [].
Proof.
  unfold Orm.orders_by_pk, Orm.delete. cbn [orders].
  induction (orders db) as [| r l IH]; [ reflexivity | ].
  cbn [List.filter].
  destruct (Z.eqb_spec (Order.id r) (Order.id x)) as [Heq | Hne]; cbn [negb].
  - exact IH.
  - cbn [List.filter].
    destruct (Z.eqb_spec (Order.id r) (Order.id x)); [ contradiction | exact IH ].
Qed.

Lemma delete_lookup_other db x pk :
  pk <> Order.id x ->
  Orm.orders_by_pk pk (Orm.delete x db) = Orm.orders_by_pk pk db.
Proof.
  intros Hne. unfold Orm.orders_by_pk, Orm.delete. cbn [orders].
  induction (orders db) as [| r l IH]; [ reflexivity | ].
  cbn [List.filter].
  destruct (Z.eqb_spec (Order.id r) (Order.id x)) as [Heq | Hne']; cbn [negb].
  - rewrite IH. destruct (Z.eqb_spec (Order.id r) pk); [ congruence | reflexivity ].
  - cbn [List.filter]. rewrite IH. reflexivity.
Qed.

Lemma head_by_pk_id db pk o :
  head (Orm.orders_by_pk pk db) = Some o -> Order.id o = pk /\ In o (orders db).
Proof.
  intros H. unfold Orm.orders_by_pk in H.
  assert (Hin : In o (List.filter (fun o => Order.id o =? pk) (orders db))).
  { destruct (List.filter _ _); [ discriminate H | ]. injection H as ->. left. reflexivity. }
  apply filter_In in Hin as [Hin Heq]. apply Z.eqb_eq in Heq. auto.
Qed.

Lemma head_map_const {A B : Type} (x : B) (l : list A) (a : A) :
  head l = Some a -> head (List.map (fun _ => x) l) = Some x.
Proof. destruct l; [ discriminate | reflexivity ]. Qed.

(** X1. The key user's reject-delete of a pending order answers 200
    and removes the order: no row has its key any more, the rows of
    every other key are untouched, and a later approval or a second
    delete under that key is answered 404 and changes nothing. *)
Theorem reject_delete_removes_order (db : DB) (user : User.t) (pk : Z)
    (data : gmap string Value) (o : Order.t) :
  head (Orm.orders_by_pk pk db) = Some o ->
  Order.status o = "pending" ->
  let '(resp, db') := KeyUserApprovalView.delete db user pk data in
  code resp = HTTP_200_OK
  /\ Orm.orders_by_pk pk db' = []
  /\ (forall pk', pk' <> pk -> Orm.orders_by_pk pk' db' = Orm.orders_by_pk pk' db)
  /\ KeyUserApprovalView.post db' user pk data = (not_found, db')
  /\ KeyUserApprovalView.delete db' user pk data = (not_found, db').
Proof.
  intros Hget Hst. destruct (head_by_pk_id db pk o Hget) as [Hid _].
  unfold KeyUserApprovalView.delete at 1. rewrite Hget, Hst. cbn [String.eqb negb].
  simpl String.eqb. cbn iota.
  assert (Hgone : Orm.orders_by_pk pk (Orm.delete o db) = [])
    by (rewrite <- Hid; apply delete_lookup_same).
  repeat split.
  - exact Hgone.
  - intros pk' Hne. apply delete_lookup_other. congruence.
  - unfold KeyUserApprovalView.post. rewrite Hgone. reflexivity.
  - unfold KeyUserApprovalView.delete. rewrite Hgone. reflexivity.
Qed.

Lemma reject_delete_removes_order_witness :
  let db := snd (serve Sample.sql (empty_store Sample.directory) [Sample.create]) in
  let '(resp, db') := KeyUserApprovalView.delete db Sample.key_user 1 ∅ in
  code resp = HTTP_200_OK /\ Orm.orders_by_pk 1 db' = [].
Proof.
  cbv zeta.
  pose proof (reject_delete_removes_order
                (snd (serve Sample.sql (empty_store Sample.directory) [Sample.create]))
                Sample.key_user 1 ∅
                (Order.mk 1 "001" "pending" (Some 3) None None (Some (Sample.day + 1))
                   (Some Sample.day) VNull None VNull None VNull None ∅)) as H.
  destruct (KeyUserApprovalView.delete _ _ _ _) as [resp db'].
  destruct H as (Hc & Hg & _); [ vm_compute; reflexivity | reflexivity | ].
  split; assumption.
Defined.

(** X2. The key user's approval of a pending order answers 200; the
    order found under the key afterwards is the same order with status
    'in-process', the notes of the request (empty when none are sent)
    and the approving user recorded; rows of other keys are untouched;
    a second approval, or a reject-delete, of that order is then
    refused with 400 and changes nothing. *)
Theorem key_user_approval_effect (db : DB) (user again : User.t) (pk : Z)
    (data data' : gmap string Value) (o : Order.t) :
  head (Orm.orders_by_pk pk db) = Some o ->
  Order.status o = "pending" ->
  let '(resp, db') := KeyUserApprovalView.post db user pk data in
  code resp = HTTP_200_OK
  /\ head (Orm.orders_by_pk pk db')
     = Some (Order.with_key_user_approval (data_get data "approval_notes")
               (Some (User.id user)) (Order.with_status "in-process" o))
  /\ (forall pk', pk' <> pk -> Orm.orders_by_pk pk' db' = Orm.orders_by_pk pk' db)
  /\ (exists msg, KeyUserApprovalView.post db' again pk data'
                  = (error_response HTTP_400_BAD_REQUEST msg, db'))
  /\ (exists msg, KeyUserApprovalView.delete db' again pk data'
                  = (error_response HTTP_400_BAD_REQUEST msg, db')).
Proof.
  intros Hget Hst. destruct (head_by_pk_id db pk o Hget) as [Hid _].
  unfold KeyUserApprovalView.post at 1. rewrite Hget, Hst. simpl String.eqb. cbn iota.
  set (o' := Order.with_key_user_approval _ _ _).
  assert (Hid' : Order.id o' = pk) by exact Hid.
  assert (Hnew : head (Orm.orders_by_pk pk (Orm.save o' db)) = Some o').
  { rewrite <- Hid', save_lookup_same. rewrite Hid'.
    exact (head_map_const o' _ o Hget). }
  repeat split.
  - exact Hnew.
  - intros pk' Hne. apply save_lookup_other. congruence.
  - unfold KeyUserApprovalView.post. rewrite Hnew. simpl. eauto.
  - unfold KeyUserApprovalView.delete. rewrite Hnew. simpl. eauto.
Qed.

Lemma key_user_approval_effect_witness :
  let db := snd (serve Sample.sql (empty_store Sample.directory) [Sample.create]) in
  let '(resp, db') := KeyUserApprovalView.post db Sample.key_user 1 ∅ in
  code resp = HTTP_200_OK
  /\ exists msg, KeyUserApprovalView.delete db' Sample.admin 1 ∅
                 = (error_response HTTP_400_BAD_REQUEST msg, db').
Proof.
  cbv zeta.
  pose proof (key_user_approval_effect
                (snd (serve Sample.sql (empty_store Sample.directory) [Sample.create]))
                Sample.key_user Sample.admin 1 ∅ ∅
                (Order.mk 1 "001" "pending" (Some 3) None None (Some (Sample.day + 1))
                   (Some Sample.day) VNull None VNull None VNull None ∅)) as H.
  destruct (KeyUserApprovalView.post _ _ _ _) as [resp db'].
  destruct H as (Hc & _ & _ & _ & Hd); [ vm_compute; reflexivity | reflexivity | ].
  split; assumption.
Defined.

(** X3. The admin decides once.  On an order whose status is
    'in-process', verification answers 200, sets 'verified' and records
    notes and verifier; rejection answers 200, sets 'admin-rejected'
    and records notes and rejecter.  After either decision, a further
    verification or rejection of that order is refused with 400 and
    changes nothing. *)
Theorem admin_decision_is_final (db : DB) (user again : User.t) (pk : Z)
    (data data' : gmap string Value) (o : Order.t) :
  head (Orm.orders_by_pk pk db) = Some o ->
  Order.status o = "in-process" ->
  (let '(resp, db') := AdminVerificationView.post db user pk data in
   code resp = HTTP_200_OK
   /\ head (Orm.orders_by_pk pk db')
      = Some (Order.with_admin_approval (data_get data "approval_notes")
                (Some (User.id user)) (Order.with_status "verified" o))
   /\ (exists msg, AdminVerificationView.post db' again pk data'
                   = (error_response HTTP_400_BAD_REQUEST msg, db'))
   /\ (exists msg, AdminVerificationView.delete db' again pk data'
                   = (error_response HTTP_400_BAD_REQUEST msg, db')))
  /\ (let '(resp, db') := AdminVerificationView.delete db user pk data in
      code resp = HTTP_200_OK
      /\ head (Orm.orders_by_pk pk db')
         = Some (Order.with_admin_rejection (data_get data "rejection_notes")
                   (Some (User.id user)) (Order.with_status "admin-rejected" o))
      /\ (exists msg, AdminVerificationView.post db' again pk data'
                      = (error_response HTTP_400_BAD_REQUEST msg, db'))
      /\ (exists msg, AdminVerificationView.delete db' again pk data'
                      = (error_response HTTP_400_BAD_REQUEST msg, db'))).
Proof.
  intros Hget Hst. destruct (head_by_pk_id db pk o Hget) as [Hid _].
  split.
  - unfold AdminVerificationView.post at 1. rewrite Hget, Hst. simpl String.eqb. cbn iota.
    set (o' := Order.with_admin_approval _ _ _).
    assert (Hid' : Order.id o' = pk) by exact Hid.
    assert (Hnew : head (Orm.orders_by_pk pk (Orm.save o' db)) = Some o').
    { rewrite <- Hid', save_lookup_same. rewrite Hid'.
      exact (head_map_const o' _ o Hget). }
    repeat split.
    + exact Hnew.
    + unfold AdminVerificationView.post. rewrite Hnew. simpl. eauto.
    + unfold AdminVerificationView.delete. rewrite Hnew. simpl. eauto.
  - unfold AdminVerificationView.delete at 1. rewrite Hget, Hst. simpl String.eqb. cbn iota.
    set (o' := Order.with_admin_rejection _ _ _).
    assert (Hid' : Order.id o' = pk) by exact Hid.
    assert (Hnew : head (Orm.orders_by_pk pk (Orm.save o' db)) = Some o').
    { rewrite <- Hid', save_lookup_same. rewrite Hid'.
      exact (head_map_const o' _ o Hget). }
    repeat split.
    + exact Hnew.
    + unfold AdminVerificationView.post. rewrite Hnew. simpl. eauto.
    + unfold AdminVerificationView.delete. rewrite Hnew. simpl. eauto.
Qed.

Lemma admin_decision_is_final_witness :
  let db := snd (serve Sample.sql (empty_store Sample.directory)
                   (firstn 2 Sample.scenario)) in
  let '(resp, db') := AdminVerificationView.delete db Sample.admin 1 ∅ in
  code resp = HTTP_200_OK
  /\ snapshot db' 1 = Some ("admin-rejected", None)
  /\ exists msg, AdminVerificationView.post db' Sample.admin 1 ∅
                 = (error_response HTTP_400_BAD_REQUEST msg, db').
Proof.
  cbv zeta.
  destruct (admin_decision_is_final
              (snd (serve Sample.sql (empty_store Sample.directory)
                      (firstn 2 Sample.scenario)))
              Sample.admin Sample.admin 1 ∅ ∅
              (Order.mk 1 "001" "in-process" (Some 3) None None (Some (Sample.day + 1))
                 (Some Sample.day) (VStr "") (Some 11) VNull None VNull None ∅))
    as [_ H]; [ vm_compute; reflexivity | reflexivity | ].
  destruct (AdminVerificationView.delete _ _ _ _) as [resp db'].
  destruct H as (Hc & Hh & Hp & _).
  split; [ exact Hc | ]. split; [ | exact Hp ].
  unfold snapshot. rewrite Hh. reflexivity.
Defined.

Lemma partner_by_pk_found db c :
  in_directory (partners db) c ->
  exists b, CraftsmanOrderResponse.partner_by_pk c db = Some b.
Proof.
  intros (b & Hb & Hid). unfold CraftsmanOrderResponse.partner_by_pk.
  assert (Hin : In b (List.filter (fun b => BusinessPartner.id b =? c) (partners db)))
    by (apply filter_In; split; [ exact Hb | apply Z.eqb_eq, Hid ]).
  destruct (List.filter _ _) as [| a l]; [ destruct Hin | eauto ].
Qed.

Lemma head_by_pk_In db o :
  In o (orders db) -> exists a, head (Orm.orders_by_pk (Order.id o) db) = Some a.
Proof.
  intros Hin. unfold Orm.orders_by_pk.
  assert (Hf : In o (List.filter (fun r => Order.id r =? Order.id o) (orders db)))
    by (apply filter_In; split; [ exact Hin | apply Z.eqb_refl ]).
  destruct (List.filter _ _) as [| a l]; [ destruct Hf | eauto ].
Qed.

(** X4. On a store reached from an empty one by the requests of the
    dispatcher, a craftsman's accept of an assigned order never fails
    half-way: the order always has a craftsman of the directory, so the
    response is the 200 with the craftsman's name and the only write is
    the status 'in-process'. *)
Theorem accept_never_raises (D : Deployment) (directory : list BusinessPartner.t)
    (rs : list Request) (user : User.t) (data : gmap string Value)
    (v : OrderActionSerializer.validated) (o : Order.t) :
  let db := snd (serve D (empty_store directory) rs) in
  OrderActionSerializer.run_validation data = Pass v ->
  OrderActionSerializer.action v = "accept" ->
  Orm.get (Orm.orders_by_order_no (OrderActionSerializer.order_no v) db) = Orm.Found o ->
  Order.status o = "assigned" ->
  let '(resp, db') := CraftsmanOrderResponse.post D db user data in
  code resp = HTTP_200_OK
  /\ db' = Orm.save (Order.with_status "in-process" o) db
  /\ exists b, In b directory /\ Order.craftsman o = Some (BusinessPartner.id b).
Proof.
  intros db Hval Hact Hget Hst.
  assert (Hok : store_ok db) by (apply serve_store_ok, empty_store_ok).
  assert (Hdir : partners db = directory) by apply serve_partners.
  pose proof (store_ok_In db o Hok (get_filter_In _ _ _ Hget))
    as (_ & Hc & _ & Ha & _).
  destruct (Order.craftsman o) as [c |] eqn:Hcr; [ | exfalso; exact (Ha Hst eq_refl) ].
  specialize (Hc c eq_refl).
  unfold CraftsmanOrderResponse.post. rewrite Hval, Hget, Hst, Hact.
  simpl String.eqb. cbn iota.
  cbn [Order.craftsman Order.with_status]. rewrite Hcr. cbn [mbind option_bind].
  destruct (partner_by_pk_found (Orm.save (Order.with_status "in-process" o) db) c Hc)
    as [b Hb].
  rewrite Hb. repeat split.
  destruct Hc as (b' & Hb' & Hid). rewrite Hdir in Hb'. exists b'. split; congruence.
Qed.

Lemma accept_never_raises_witness :
  let db := snd (serve Sample.plain (empty_store Sample.directory)
                   (firstn 4 Sample.scenario)) in
  let '(resp, db') :=
    CraftsmanOrderResponse.post Sample.plain db Sample.user_C1
      (Sample.on_order_001 "accept") in
  code resp = HTTP_200_OK /\ snapshot db' 1 = Some ("in-process", Some 1).
Proof.
  cbv zeta.
  pose proof (accept_never_raises Sample.plain Sample.directory
                (firstn 4 Sample.scenario) Sample.user_C1
                (Sample.on_order_001 "accept")
                (OrderActionSerializer.mkValidated "001" "accept")
                (Order.mk 1 "001" "assigned" (Some 3) (Some 1) None
                   (Some (Sample.day + 1)) (Some Sample.day)
                   (VStr "") (Some 11) (VStr "") (Some 12) VNull None ∅)) as H.
  cbv zeta in H.
  destruct (CraftsmanOrderResponse.post _ _ _ _) as [resp db'].
  destruct H as (Hc & Hdb & _);
    [ vm_compute; reflexivity | reflexivity | vm_compute; reflexivity | reflexivity | ].
  split; [ exact Hc | ]. rewrite Hdb. vm_compute. reflexivity.
Defined.

(** X5. The label 'in-process' is shared by the orders waiting for the
    admin and the orders a craftsman works on.  Once a craftsman has
    accepted an assigned order, the order is among those
    [NewOrdersListView] lists for verification, and the admin's
    verification of it is answered 200: the order becomes 'verified'
    again and keeps its craftsman. *)
Theorem accepted_order_passes_admin_verification (D : Deployment) (db : DB)
    (user admin : User.t) (data notes : gmap string Value)
    (v : OrderActionSerializer.validated) (o : Order.t) :
  OrderActionSerializer.run_validation data = Pass v ->
  OrderActionSerializer.action v = "accept" ->
  Orm.get (Orm.orders_by_order_no (OrderActionSerializer.order_no v) db) = Orm.Found o ->
  Order.status o = "assigned" ->
  let db1 := snd (CraftsmanOrderResponse.post D db user data) in
  let '(resp, db2) := AdminVerificationView.post db1 admin (Order.id o) notes in
  In (Order.with_status "in-process" o) (NewOrdersListView_get db1)
  /\ code resp = HTTP_200_OK
  /\ snapshot db2 (Order.id o) = Some ("verified", Order.craftsman o).
Proof.
  intros Hval Hact Hget Hst db1.
  pose proof (get_filter_In _ _ _ Hget) as Hin.
  set (o1 := Order.with_status "in-process" o).
  assert (Hdb1 : db1 = Orm.save o1 db).
  { unfold db1, CraftsmanOrderResponse.post. rewrite Hval, Hget, Hst, Hact.
    simpl String.eqb. cbn iota. destruct (_ ≫= _); reflexivity. }
  destruct (head_by_pk_In db o Hin) as [a Ha].
  assert (Hhead : head (Orm.orders_by_pk (Order.id o) db1) = Some o1).
  { rewrite Hdb1. change (Order.id o) with (Order.id o1).
    rewrite save_lookup_same. exact (head_map_const o1 _ a Ha). }
  unfold AdminVerificationView.post. rewrite Hhead.
  cbn [Order.status o1 Order.with_status]. simpl String.eqb. cbn iota.
  set (o2 := Order.with_admin_approval _ _ _).
  repeat split.
  - unfold NewOrdersListView_get, orders_with_status. apply filter_In. split.
    + rewrite Hdb1. apply (save_In db o); [ exact Hin | reflexivity ].
    + reflexivity.
  - unfold snapshot. change (Order.id o) with (Order.id o2).
    rewrite save_lookup_same. change (Order.id o2) with (Order.id o).
    rewrite (head_map_const o2 _ o1 Hhead). reflexivity.
Qed.

Lemma accepted_order_passes_admin_verification_witness :
  let db1 := snd (CraftsmanOrderResponse.post Sample.plain
                    (Sample.assigned_to_C1 Sample.plain) Sample.user_C1
                    (Sample.on_order_001 "accept")) in
  let '(resp, db2) := AdminVerificationView.post db1 Sample.admin 1 ∅ in
  code resp = HTTP_200_OK /\ snapshot db2 1 = Some ("verified", Some 1).
Proof.
  cbv zeta.
  pose proof (accepted_order_passes_admin_verification Sample.plain
                (Sample.assigned_to_C1 Sample.plain) Sample.user_C1 Sample.admin
                (Sample.on_order_001 "accept") ∅
                (OrderActionSerializer.mkValidated "001" "accept")
                (Order.mk 1 "001" "assigned" (Some 3) (Some 1) None
                   (Some (Sample.day + 1)) (Some Sample.day)
                   (VStr "") (Some 11) (VStr "") (Some 12) VNull None ∅)) as H.
  cbv zeta in H. cbn [Order.id Order.craftsman] in H.
  destruct (AdminVerificationView.post _ _ _ _) as [resp db2].
  destruct H as (_ & Hc & Hs);
    [ vm_compute; reflexivity | reflexivity | vm_compute; reflexivity | reflexivity | ].
  split; assumption.
Defined.



(** X7. On a store reached from an empty one by the requests of the
    dispatcher, the status of every order is one of the eight labels
    these views write: pending, in-process, verified, admin-rejected,
    assigned, rejected, awaiting-approval, complete.  In particular no
    order is ever completed_by_craftsman, the second status the
    approval of a completion is said to accept. *)
Theorem status_is_one_of_eight (D : Deployment) (directory : list BusinessPartner.t)
    (rs : list Request) (o : Order.t) :
  In o (orders (snd (serve D (empty_store directory) rs))) ->
  In (Order.status o) status_labels
  /\ Order.status o <> "completed_by_craftsman".
Proof.
  intros Hin.
  pose proof (store_ok_In _ o (serve_store_ok D rs _ (empty_store_ok directory)) Hin)
    as (Hs & _).
  split; [ exact Hs | ].
  intros Heq; rewrite Heq in Hs; simpl in Hs;
    repeat (destruct Hs as [Hs | Hs]; [ discriminate Hs | ]); exact Hs.
Qed.

Lemma status_is_one_of_eight_witness :
  In "assigned" status_labels.
Proof.
  apply (status_is_one_of_eight Sample.sql Sample.directory (firstn 4 Sample.scenario)
           (Order.mk 1 "001" "assigned" (Some 3) (Some 1) None
              (Some (Sample.day + 1)) (Some Sample.day)
              (VStr "") (Some 11) (VStr "") (Some 12) VNull None ∅)).
  vm_compute. left. reflexivity.
Defined.

(** X8. On a store reached from an empty one, craftsman and status go
    together: the craftsman and the last rejecter of an order are
    entries of the directory; an assigned order has a craftsman; a
    rejected order has none and names its rejecter; a pending order has
    no craftsman. *)
Theorem craftsman_matches_status (D : Deployment) (directory : list BusinessPartner.t)
    (rs : list Request) (o : Order.t) :
  In o (orders (snd (serve D (empty_store directory) rs))) ->
  (forall c, Order.craftsman o = Some c ->
             exists b, In b directory /\ BusinessPartner.id b = c)
  /\ (forall c, Order.rejected_by o = Some c ->
                exists b, In b directory /\ BusinessPartner.id b = c)
  /\ (Order.status o = "assigned" -> Order.craftsman o <> None)
  /\ (Order.status o = "rejected" ->
      Order.craftsman o = None /\ Order.rejected_by o <> None)
  /\ (Order.status o = "pending" -> Order.craftsman o = None).
Proof.
  intros Hin.
  pose proof (store_ok_In _ o (serve_store_ok D rs _ (empty_store_ok directory)) Hin)
    as (_ & Hc & Hr & Ha & Hj & Hp & _).
  rewrite serve_partners in Hc, Hr. simpl in Hc, Hr.
  repeat split; try assumption; apply Hj; assumption.
Qed.

Lemma craftsman_matches_status_witness :
  exists b, In b Sample.directory /\ BusinessPartner.id b = 1.
Proof.
  destruct (craftsman_matches_status Sample.sql Sample.directory
              (firstn 4 Sample.scenario)
              (Order.mk 1 "001" "assigned" (Some 3) (Some 1) None
                 (Some (Sample.day + 1)) (Some Sample.day)
                 (VStr "") (Some 11) (VStr "") (Some 12) VNull None ∅)) as (Hc & _).
  - vm_compute. left. reflexivity.
  - exact (Hc 1 eq_refl).
Defined.

(** X9. The order date is written once.  On a store reached from an
    empty one every order has an order date, and whatever request is
    served next, the order still stored under the same key afterwards
    has the same order date. *)
Theorem order_date_is_never_rewritten (D : Deployment)
    (directory : list BusinessPartner.t) (rs : list Request) (r : Request)
    (o o' : Order.t) :
  let db := snd (serve D (empty_store directory) rs) in
  In o (orders db) ->
  In o' (orders (snd (dispatch D db r))) ->
  Order.id o' = Order.id o ->
  Order.order_date o <> None /\ Order.order_date o' = Order.order_date o.
Proof.
  intros db Hin Hin' Hid.
  assert (Hw : well_numbered db) by (apply serve_well_numbered, empty_well_numbered).
  assert (Hok : store_ok db) by (apply serve_store_ok, empty_store_ok).
  split.
  - pose proof (store_ok_In db o Hok Hin) as (_ & _ & _ & _ & _ & _ & Hd). exact Hd.
  - destruct (dispatch_order_dates_kept D db r Hw o' Hin')
      as [(o2 & Hin2 & Hid2 & Hd2) | (Hnew & _)].
    + destruct Hw as (Hasc & _).
      assert (o2 = o) as -> by (apply (ascending_unique _ _ _ _ _ Hasc Hin2 Hin); congruence).
      exact Hd2.
    + destruct Hw as (_ & Hall & _). rewrite List.Forall_forall in Hall.
      specialize (Hall o Hin). lia.
Qed.

Lemma order_date_is_never_rewritten_witness :
  let db := snd (serve Sample.sql (empty_store Sample.directory)
                   (firstn 4 Sample.scenario)) in
  let rejected := Order.mk 1 "001" "rejected" (Some 3) None (Some 1)
                    (Some (Sample.day + 1)) (Some Sample.day)
                    (VStr "") (Some 11) (VStr "") (Some 12) VNull None ∅ in
  In rejected
    (orders (snd (dispatch Sample.sql db
                    (mkRequest Sample.user_C1 (Sample.day + 7) CraftsmanRespond
                       (Sample.on_order_001 "reject")))))
  /\ Order.order_date rejected = Some Sample.day.
Proof.
  cbv zeta. split; [ vm_compute; left; reflexivity | ].
  apply (order_date_is_never_rewritten Sample.sql Sample.directory
           (firstn 4 Sample.scenario)
           (mkRequest Sample.user_C1 (Sample.day + 7) CraftsmanRespond
              (Sample.on_order_001 "reject"))
           (Order.mk 1 "001" "assigned" (Some 3) (Some 1) None
              (Some (Sample.day + 1)) (Some Sample.day)
              (VStr "") (Some 11) (VStr "") (Some 12) VNull None ∅)).
  - vm_compute. left. reflexivity.
  - vm_compute. left. reflexivity.
  - reflexivity.
Defined.

(** ** Completion *)

Lemma filter_map_same {A : Type} (p : A -> bool) (f : A -> A) (l : list A) :
  (forall r, In r l -> p (f r) = p r) ->
  List.filter p (List.map f l) = List.map f (List.filter p l).
Proof.
  induction l as [| r l IH]; intros H; [ reflexivity | ].
  cbn [List.map List.filter]. rewrite (H r) by (left; reflexivity).
  rewrite IH by (intros x Hx; apply H; right; exact Hx).
  destruct (p r); reflexivity.
Qed.

Lemma save_found_by_order_no db no o x :
  well_numbered db ->
  Orm.get (Orm.orders_by_order_no no db) = Orm.Found o ->
  keeps_number o x ->
  Orm.get (Orm.orders_by_order_no no (Orm.save x db)) = Orm.Found x.
Proof.
  intros (Hasc & _) Hget (Hid & Hno & _).
  pose proof (get_filter_In _ _ _ Hget) as Hin.
  assert (Hfil : Orm.orders_by_order_no no db = [o]).
  { destruct (Orm.orders_by_order_no no db) as [| a [| b l]]; try discriminate Hget.
    injection Hget as ->. reflexivity. }
  unfold Orm.orders_by_order_no, Orm.save in *. cbn [orders].
  rewrite filter_map_same.
  - rewrite Hfil. cbn [List.map]. rewrite <- Hid, Z.eqb_refl. reflexivity.
  - intros r Hr. destruct (Z.eqb_spec (Order.id r) (Order.id x)) as [Heq | _];
      [ | reflexivity ].
    assert (r = o) as -> by (apply (ascending_unique _ _ _ _ _ Hasc Hr Hin); congruence).
    rewrite Hno. reflexivity.
Qed.

(** X10. From work to completion.  On a store reached from an empty
    one, when the order a request names is 'in-process', the
    craftsman's completion report answers 200 and the admin's approval
    that follows answers 200; the order is then found under its number
    with status 'complete' and every other field, its craftsman
    included, as before.  After that, a further report or approval is
    refused with 400 and changes nothing. *)
Theorem completion_path (D : Deployment) (directory : list BusinessPartner.t)
    (rs : list Request) (data : gmap string Value) (o : Order.t) :
  let db := snd (serve D (empty_store directory) rs) in
  get_by_order_no (data !! "order_no") db = Orm.Found o ->
  Order.status o = "in-process" ->
  let '(r1, db1) := ApproveOrderView.post db data in
  let '(r2, db2) := CompletedOrdersView.post db1 data in
  code r1 = HTTP_200_OK
  /\ code r2 = HTTP_200_OK
  /\ get_by_order_no (data !! "order_no") db2
     = Orm.Found (Order.with_status "complete" o)
  /\ (exists msg, ApproveOrderView.post db2 data
                  = (error_response HTTP_400_BAD_REQUEST msg, db2))
  /\ (exists msg, CompletedOrdersView.post db2 data
                  = (error_response HTTP_400_BAD_REQUEST msg, db2)).
Proof.
  intros db Hget Hst.
  assert (Hw : well_numbered db) by (apply serve_well_numbered, empty_well_numbered).
  clearbody db.
  unfold get_by_order_no in *.
  destruct (data !! "order_no" ≫= char_key) as [no |] eqn:Hkey; [ | discriminate Hget ].
  pose proof (get_filter_In _ _ _ Hget) as Hin.
  set (o1 := Order.with_status "awaiting-approval" o).
  set (o2 := Order.with_status "complete" o).
  assert (Hk1 : keeps_number o o1) by (repeat split; reflexivity).
  assert (Hk2 : keeps_number o1 o2) by (repeat split; reflexivity).
  pose proof (save_found_by_order_no db no o o1 Hw Hget Hk1) as Hget1.
  pose proof (save_well_numbered db o o1 Hw Hin Hk1) as Hw1.
  pose proof (save_found_by_order_no _ no o1 o2 Hw1 Hget1 Hk2) as Hget2.
  assert (E1 : exists r1, ApproveOrderView.post db data = (r1, Orm.save o1 db)
                          /\ code r1 = HTTP_200_OK).
  { unfold ApproveOrderView.post, get_by_order_no. rewrite Hkey, Hget, Hst.
    simpl String.eqb. cbn iota. eexists. split; reflexivity. }
  destruct E1 as (r1 & -> & Hc1).
  assert (E2 : exists r2, CompletedOrdersView.post (Orm.save o1 db) data
                          = (r2, Orm.save o2 (Orm.save o1 db))
                          /\ code r2 = HTTP_200_OK).
  { unfold CompletedOrdersView.post, get_by_order_no. rewrite Hkey, Hget1.
    cbn [Order.status o1 Order.with_status]. simpl String.eqb. cbn iota.
    eexists. split; reflexivity. }
  destruct E2 as (r2 & -> & Hc2).
  repeat split; try assumption.
  - unfold ApproveOrderView.post, get_by_order_no. rewrite Hkey, Hget2. simpl. eauto.
  - unfold CompletedOrdersView.post, get_by_order_no. rewrite Hkey, Hget2. simpl. eauto.
Qed.

Lemma completion_path_witness :
  let db := snd (serve Sample.plain (empty_store Sample.directory)
                   (firstn 6 Sample.scenario)) in
  let '(r1, db1) := ApproveOrderView.post db (Sample.on_order_001 EmptyString) in
  let '(r2, db2) := CompletedOrdersView.post db1 (Sample.on_order_001 EmptyString) in
  code r1 = HTTP_200_OK /\ code r2 = HTTP_200_OK
  /\ get_by_order_no (Sample.on_order_001 EmptyString !! "order_no") db2
     = Orm.Found (Order.mk 1 "001" "complete" (Some 3) (Some 1) (Some 1)
                    (Some (Sample.day + 1)) (Some Sample.day)
                    (VStr EmptyString) (Some 11) (VStr EmptyString) (Some 12)
                    VNull None ∅).
Proof.
  cbv zeta.
  pose proof (completion_path Sample.plain Sample.directory (firstn 6 Sample.scenario)
                (Sample.on_order_001 EmptyString)
                (Order.mk 1 "001" "in-process" (Some 3) (Some 1) (Some 1)
                   (Some (Sample.day + 1)) (Some Sample.day)
                   (VStr EmptyString) (Some 11) (VStr EmptyString) (Some 12)
                   VNull None ∅)) as H.
  cbv zeta in H.
  destruct (ApproveOrderView.post _ _) as [r1 db1].
  destruct (CompletedOrdersView.post db1 _) as [r2 db2].
  destruct H as (H1 & H2 & Hf & _); [ vm_compute; reflexivity | reflexivity | ].
  split; [ exact H1 | ]. split; [ exact H2 | exact Hf ].
Defined.

(** ** Assignment through the listed code *)

Lemma append_assoc_string (a b c : string) : (a +:+ b) +:+ c = a +:+ (b +:+ c).
Proof.
  induction a as [| x a IH]; [ reflexivity | ].
  change (String x ((a +:+ b) +:+ c) = String x (a +:+ (b +:+ c))). rewrite IH. reflexivity.
Qed.

Lemma split_dash_append code name :
  no_dash code = true ->
  PyStr.split_dash (code +:+ "-" +:+ name) = Some (code, name).
Proof.
  unfold no_dash. induction code as [| c code IH]; simpl; [ reflexivity | ].
  intros H. apply andb_true_iff in H as [Hc Hrest].
  apply negb_true_iff in Hc. rewrite Hc, (IH Hrest). reflexivity.
Qed.

Lemma append_dash_not_empty code name : code +:+ "-" +:+ name <> EmptyString.
Proof. destruct code; discriminate. Qed.

Lemma assignment_validated db data pk s dd o :
  data !! "order_no" = Some (VInt pk) ->
  data !! "bp_code" = Some (VStr s) ->
  data !! "due_date" = VDate <$> dd ->
  head (Orm.orders_by_pk pk db) = Some o ->
  Py.strip s = s -> s <> EmptyString ->
  OrderAssignmentSerializer.run_validation db data
  = match OrderAssignmentSerializer.validate_bp_code db s with
    | Pass b => Pass (OrderAssignmentSerializer.mkValidated pk b dd)
    | ValidationError e => ValidationError e
    | Raised x => ValidationError []
    end.
Proof.
  intros Hno Hbp Hdue Hget Hstrip Hne.
  unfold OrderAssignmentSerializer.run_validation.
  rewrite Hno, Hbp, Hdue. cbn [char_key]. rewrite Hstrip.
  assert (Hord : OrderAssignmentSerializer.validate_order_no db pk = Pass pk).
  { unfold OrderAssignmentSerializer.validate_order_no.
    destruct (Orm.orders_by_pk pk db); [ discriminate Hget | reflexivity ]. }
  rewrite Hord.
  destruct s as [| c s]; [ contradiction | ].
  destruct (OrderAssignmentSerializer.validate_bp_code db (String c s)) as [b | e | x];
    destruct dd as [d |]; cbn; rewrite ?app_nil_r; reflexivity.
Qed.

(** X11. What the assignment form lists can be posted back.  A
    CRAFTSMAN of the directory is listed by [AssignOrdersToCraftsman.get]
    under the code [bp_code-business_name].  When its [bp_code] holds no
    dash, the listed code has no surrounding white space and no other
    craftsman has the same code and, ignoring case, the same name, then
    posting the listed code with the key of an existing order answers
    200 whatever the status of the order: the order gets that craftsman
    and the status 'assigned'; its due date is replaced by the one of
    the request, unchecked, and kept when the request has none. *)
Theorem listed_craftsman_is_assignable (db : DB) (data : gmap string Value)
    (b : BusinessPartner.t) (pk : Z) (dd : option Z) (o : Order.t) :
  OrderAssignmentSerializer.craftsmen_named (BusinessPartner.bp_code b)
    (BusinessPartner.business_name b) db = [b] ->
  no_dash (BusinessPartner.bp_code b) = true ->
  Py.strip (CraftsmanSerializer.get_bp_code b) = CraftsmanSerializer.get_bp_code b ->
  data !! "order_no" = Some (VInt pk) ->
  data !! "bp_code" = Some (VStr (CraftsmanSerializer.get_bp_code b)) ->
  data !! "due_date" = VDate <$> dd ->
  head (Orm.orders_by_pk pk db) = Some o ->
  let assigned :=
    Order.with_status "assigned"
      (Order.with_craftsman (Some (BusinessPartner.id b)) o) in
  let o' := match dd with
            | Some d => Order.with_due_date (Some d) assigned
            | None => assigned
            end in
  In (CraftsmanSerializer.to_representation b) (AssignOrdersToCraftsman_get db)
  /\ code (fst (AssignOrdersToCraftsman.post db data)) = HTTP_200_OK
  /\ snd (AssignOrdersToCraftsman.post db data) = Orm.save o' db
  /\ head (Orm.orders_by_pk pk (Orm.save o' db)) = Some o'.
Proof.
  intros Hnamed Hdash Hstrip Hno Hbp Hdue Hget assigned o'.
  destruct (head_by_pk_id db pk o Hget) as [Hid _].
  assert (Hb : In b (OrderAssignmentSerializer.craftsmen_named
                       (BusinessPartner.bp_code b) (BusinessPartner.business_name b) db))
    by (rewrite Hnamed; left; reflexivity).
  unfold OrderAssignmentSerializer.craftsmen_named in Hb.
  apply filter_In in Hb as [Hb Hrole].
  apply andb_true_iff in Hrole as [_ Hrole].
  pose proof (split_dash_append _ (BusinessPartner.business_name b) Hdash) as Hsplit.
  fold (CraftsmanSerializer.get_bp_code b) in Hsplit.
  assert (Hv : OrderAssignmentSerializer.validate_bp_code db
                 (CraftsmanSerializer.get_bp_code b)
               = Pass (CraftsmanSerializer.get_bp_code b)).
  { unfold OrderAssignmentSerializer.validate_bp_code. rewrite Hsplit, Hnamed. reflexivity. }
  split.
  { unfold AssignOrdersToCraftsman_get. apply in_map, filter_In. auto. }
  assert (Hid' : Order.id o' = pk) by (unfold o'; destruct dd; exact Hid).
  assert (Hpost : exists resp, AssignOrdersToCraftsman.post db data = (resp, Orm.save o' db)
                               /\ code resp = HTTP_200_OK).
  { unfold AssignOrdersToCraftsman.post.
    rewrite (assignment_validated db data pk _ dd o Hno Hbp Hdue Hget Hstrip
               (append_dash_not_empty _ _)).
    rewrite Hv. cbn [OrderAssignmentSerializer.bp_code OrderAssignmentSerializer.order_no
                     OrderAssignmentSerializer.due_date].
    rewrite Hsplit, Hnamed. cbn [Orm.get]. rewrite Hget.
    unfold o', assigned. destruct dd; eexists; split; reflexivity. }
  destruct Hpost as (resp & -> & Hcode).
  repeat split; [ exact Hcode | ].
  rewrite <- Hid', save_lookup_same, Hid'. exact (head_map_const o' _ o Hget).
Qed.

Lemma listed_craftsman_is_assignable_witness :
  let db := snd (serve Sample.sql (empty_store Sample.directory)
                   (firstn 8 Sample.scenario)) in
  let data := Sample.body_of [("order_no", VInt 1); ("bp_code", VStr "C2-Beta Works")] in
  snapshot db 1 = Some ("rejected", None)
  /\ code (fst (AssignOrdersToCraftsman.post db data)) = HTTP_200_OK
  /\ snapshot (snd (AssignOrdersToCraftsman.post db data)) 1 = Some ("assigned", Some 2).
Proof.
  cbv zeta. split; [ vm_compute; reflexivity | ].
  destruct (listed_craftsman_is_assignable
              (snd (serve Sample.sql (empty_store Sample.directory)
                      (firstn 8 Sample.scenario)))
              (Sample.body_of [("order_no", VInt 1); ("bp_code", VStr "C2-Beta Works")])
              Sample.C2 1 None
              (Order.mk 1 "001" "rejected" (Some 3) None (Some 1)
                 (Some (Sample.day + 1)) (Some Sample.day)
                 (VStr EmptyString) (Some 11) (VStr EmptyString) (Some 12)
                 VNull None ∅))
    as (_ & Hcode & Hdb & Hhead); try (vm_compute; reflexivity).
  split; [ exact Hcode | ].
  unfold snapshot. rewrite Hdb, Hhead. reflexivity.
Defined.

(** X12. The listed code is cut at its first dash.  For a craftsman
    whose [bp_code] itself holds a dash, the part before that dash is
    taken for the code and the rest, business name included, for the
    name; when no CRAFTSMAN answers to that pair the assignment is
    refused with 400, the message of [validate_bp_code], and nothing is
    written. *)
Theorem dashed_code_is_not_assignable (db : DB) (data : gmap string Value)
    (b : BusinessPartner.t) (c1 c2 : string) :
  BusinessPartner.bp_code b = c1 +:+ "-" +:+ c2 ->
  no_dash c1 = true ->
  OrderAssignmentSerializer.craftsmen_named c1
    (c2 +:+ "-" +:+ BusinessPartner.business_name b) db = [] ->
  Py.strip (CraftsmanSerializer.get_bp_code b) = CraftsmanSerializer.get_bp_code b ->
  data !! "bp_code" = Some (VStr (CraftsmanSerializer.get_bp_code b)) ->
  code (fst (AssignOrdersToCraftsman.post db data)) = HTTP_400_BAD_REQUEST
  /\ In ("bp_code", VStr "No CRAFTSMAN found with this BP Code and Business Name.")
       (body (fst (AssignOrdersToCraftsman.post db data)))
  /\ snd (AssignOrdersToCraftsman.post db data) = db.
Proof.
  intros Hcode Hdash Hnone Hstrip Hbp.
  assert (Heq : CraftsmanSerializer.get_bp_code b
                = c1 +:+ "-" +:+ (c2 +:+ "-" +:+ BusinessPartner.business_name b)).
  { unfold CraftsmanSerializer.get_bp_code. rewrite Hcode.
    rewrite append_assoc_string. reflexivity. }
  assert (Hv : OrderAssignmentSerializer.validate_bp_code db
                 (CraftsmanSerializer.get_bp_code b)
               = ValidationError
                   [("bp_code", "No CRAFTSMAN found with this BP Code and Business Name.")]).
  { unfold OrderAssignmentSerializer.validate_bp_code.
    rewrite Heq, (split_dash_append _ _ Hdash), Hnone. reflexivity. }
  unfold AssignOrdersToCraftsman.post, OrderAssignmentSerializer.run_validation.
  rewrite Hbp. cbn [char_key]. rewrite Hstrip.
  destruct (CraftsmanSerializer.get_bp_code b) as [| ch rest] eqn:Hs.
  { exfalso. exact (append_dash_not_empty _ _ (eq_sym Heq)). }
  rewrite Hv.
  set (order_no_r := match data !! "order_no" with Some _ => _ | None => _ end).
  set (due_r := match data !! "due_date" with Some _ => _ | None => _ end).
  assert (Hres : exists es,
    match order_no_r, ValidationError
            [("bp_code", "No CRAFTSMAN found with this BP Code and Business Name.")],
          due_r with
    | Pass n, Pass b0, Pass d => Pass (OrderAssignmentSerializer.mkValidated n b0 d)
    | _, _, _ =>
        ValidationError
          (match order_no_r with ValidationError e => e | _ => [] end
           ++ match (ValidationError
                       [("bp_code",
                         "No CRAFTSMAN found with this BP Code and Business Name.")]
                     : Checked string) with ValidationError e => e | _ => [] end
           ++ match due_r with ValidationError e => e | _ => [] end)
    end = ValidationError es
    /\ In ("bp_code", "No CRAFTSMAN found with this BP Code and Business Name.") es).
  { destruct order_no_r as [n | e1 | x1]; eexists; (split; [ reflexivity | ]);
      apply in_or_app; right; apply in_or_app; left; left; reflexivity. }
  destruct Hres as (es & -> & Hin). cbn [fst snd code body errors_response].
  repeat split.
  apply (in_map (fun '(k, m) => (k, VStr m)) es
           ("bp_code", "No CRAFTSMAN found with this BP Code and Business Name.")).
  exact Hin.
Qed.

Lemma dashed_code_is_not_assignable_witness :
  let dashed := BusinessPartner.mk 7 "K-9" "Gamma" "Craftsman Nine" "CRAFTSMAN" in
  let db := mkDB (orders (Sample.assigned_to_C1 Sample.sql)) [Sample.C1; dashed] 1 in
  let data := Sample.body_of [("order_no", VInt 1); ("bp_code", VStr "K-9-Gamma")] in
  code (fst (AssignOrdersToCraftsman.post db data)) = HTTP_400_BAD_REQUEST
  /\ snd (AssignOrdersToCraftsman.post db data) = db.
Proof.
  cbv zeta.
  destruct (dashed_code_is_not_assignable
              (mkDB (orders (Sample.assigned_to_C1 Sample.sql))
                 [Sample.C1; BusinessPartner.mk 7 "K-9" "Gamma" "Craftsman Nine" "CRAFTSMAN"] 1)
              (Sample.body_of [("order_no", VInt 1); ("bp_code", VStr "K-9-Gamma")])
              (BusinessPartner.mk 7 "K-9" "Gamma" "Craftsman Nine" "CRAFTSMAN") "K" "9")
    as (Hcode & _ & Hdb); try (vm_compute; reflexivity).
  split; assumption.
Defined.

(** ** What a client can and cannot write *)

(** X13. Creation and update read the request at the writable fields of
    [OrderSerializer] only: a key outside them, such as [status],
    [order_no], [craftsman] or [order_date], changes neither the answer
    nor the database, whatever value it carries. *)
Theorem unwritable_key_is_ignored (D : Deployment) (db : DB) (today : Z)
    (data : gmap string Value) (k : string) (v : Value) (order_no : string) :
  ~ In k OrderSerializer.writable_fields ->
  OrderCreateView.post D db today (<[k := v]> data) = OrderCreateView.post D db today data
  /\ OrderDetailView.put db today order_no (<[k := v]> data)
     = OrderDetailView.put db today order_no data.
Proof.
  intros Hk.
  assert (Hext : OrderSerializer.to_internal_value_of OrderSerializer.writable_fields
                   db today (<[k := v]> data)
                 = OrderSerializer.to_internal_value_of OrderSerializer.writable_fields
                     db today data).
  { apply internal_value_ext. intros f Hf.
    apply lookup_insert_ne. intros ->. exact (Hk Hf). }
  split.
  - unfold OrderCreateView.post. rewrite !run_validation_is_internal_value.
    unfold OrderSerializer.to_internal_value. rewrite Hext. reflexivity.
  - unfold OrderDetailView.put. rewrite !run_validation_is_internal_value.
    unfold OrderSerializer.to_internal_value. rewrite Hext. reflexivity.
Qed.

Lemma unwritable_key_is_ignored_witness :
  OrderCreateView.post Sample.sql (empty_store Sample.directory) Sample.day
    (<["status" := VStr "complete"]> Sample.new_order)
  = OrderCreateView.post Sample.sql (empty_store Sample.directory) Sample.day
      Sample.new_order.
Proof.
  apply (unwritable_key_is_ignored Sample.sql (empty_store Sample.directory) Sample.day
           Sample.new_order "status" (VStr "complete") "001").
  vm_compute. intros H.
  repeat (destruct H as [H | H]; [ discriminate H | ]). exact H.
Defined.

(** X14. A field update leaves the workflow alone.  After
    [OrderDetailView.put], whatever it answers, every stored order is an
    order that was stored before with the same key, order number,
    status, craftsman, last rejecter and order date. *)
Theorem update_keeps_workflow_fields (db : DB) (today : Z) (order_no : string)
    (data : gmap string Value) (o' : Order.t) :
  In o' (orders (snd (OrderDetailView.put db today order_no data))) ->
  exists o, In o (orders db)
            /\ Order.id o' = Order.id o
            /\ Order.order_no o' = Order.order_no o
            /\ Order.status o' = Order.status o
            /\ Order.craftsman o' = Order.craftsman o
            /\ Order.rejected_by o' = Order.rejected_by o
            /\ Order.order_date o' = Order.order_date o.
Proof.
  unfold OrderDetailView.put.
  destruct (Orm.get _) as [instance | |] eqn:Hget;
    try (intros Hin; exists o'; repeat split; exact Hin).
  apply get_filter_In in Hget.
  destruct (OrderSerializer.run_validation db today data) as [m | es | x];
    try (intros Hin; exists o'; repeat split; exact Hin).
  cbn [snd]. unfold OrderSerializer.update, Orm.save. cbn [orders].
  intros Hin. apply in_map_iff in Hin as (r & <- & Hr).
  destruct (Order.id r =? _); [ | exists r; repeat split; exact Hr ].
  exists instance.
  destruct (m !! "bp_code") as [[] |]; destruct (m !! "due_date") as [[] |];
    repeat split; exact Hget.
Qed.

Lemma update_keeps_workflow_fields_witness :
  let db := Sample.assigned_to_C1 Sample.sql in
  let data := Sample.body_of [("due_date", VDate (Sample.day + 30));
                              ("narration", VStr "rush")] in
  exists o, In o (orders db) /\ Order.status o = "assigned"
            /\ Order.craftsman o = Some 1.
Proof.
  cbv zeta.
  destruct (update_keeps_workflow_fields (Sample.assigned_to_C1 Sample.sql) Sample.day
              "001"
              (Sample.body_of [("due_date", VDate (Sample.day + 30));
                               ("narration", VStr "rush")])
              (Order.mk 1 "001" "assigned" (Some 3) (Some 1) None
                 (Some (Sample.day + 30)) (Some Sample.day)
                 (VStr EmptyString) (Some 11) (VStr EmptyString) (Some 12) VNull None
                 (<["narration" := VStr "rush"]> ∅)))
    as (o & Hin & _ & _ & Hs & Hc & _).
  - vm_compute. left. reflexivity.
  - exists o. cbn in Hs, Hc. auto.
Defined.

(** X15. The due date is checked on update as on creation: an update
    whose [due_date] is today or earlier is not applied, the database
    is unchanged and the answer is not 200. *)
Theorem update_refuses_past_due_date (db : DB) (today value : Z) (order_no : string)
    (data : gmap string Value) :
  value <= today ->
  data !! "due_date" = Some (VDate value) ->
  snd (OrderDetailView.put db today order_no data) = db
  /\ code (fst (OrderDetailView.put db today order_no data)) <> HTTP_200_OK.
Proof.
  intros Hle Hdue.
  assert (Hf : OrderSerializer.run_field db today "due_date" (VDate value)
               = ValidationError
                   [("due_date",
                     "Due date must be tomorrow or later. Cannot be today or in the past.")]).
  { unfold OrderSerializer.run_field, OrderSerializer.due_date_field,
      OrderSerializer.validate_due_date. simpl.
    destruct (Z.leb_spec value today); [ reflexivity | lia ]. }
  unfold OrderDetailView.put.
  destruct (Orm.get _) as [instance | |]; try (split; [ reflexivity | discriminate ]).
  rewrite run_validation_is_internal_value. unfold OrderSerializer.to_internal_value.
  destruct (internal_value_error db today data OrderSerializer.writable_fields
              "due_date" (VDate value) _ writable_due_date Hdue Hf)
    as [(es & -> & _) | (x & ->)]; split; reflexivity || discriminate.
Qed.

Lemma update_refuses_past_due_date_witness :
  let db := Sample.assigned_to_C1 Sample.sql in
  snd (OrderDetailView.put db Sample.day "001"
         (Sample.body_of [("due_date", VDate Sample.day)])) = db.
Proof.
  cbv zeta.
  apply (update_refuses_past_due_date (Sample.assigned_to_C1 Sample.sql) Sample.day
           Sample.day "001" (Sample.body_of [("due_date", VDate Sample.day)])).
  - lia.
  - vm_compute. reflexivity.
Defined.

(** ** Numbers, again *)

(** X16. Every number [create] prints reads back as an integer, so on a
    store reached from an empty one the fallback to the count of orders
    is never taken: the last order's number is an integer n of at
    least 1 and the next order gets n + 1, zero filled to two
    characters. *)
Theorem next_number_is_successor (D : Deployment) (directory : list BusinessPartner.t)
    (rs : list Request) (o : Order.t) :
  let db := snd (serve D (empty_store directory) rs) in
  last (orders db) = Some o ->
  exists n, Py.int (Order.order_no o) = Some n
            /\ 1 <= n
            /\ OrderSerializer.new_order_no db = Py.format_02d (n + 1)
            /\ Py.int (OrderSerializer.new_order_no db) = Some (n + 1).
Proof.
  intros db Hlast.
  assert (Hw : well_numbered db) by (apply serve_well_numbered, empty_well_numbered).
  destruct Hw as (Hasc & _).
  assert (Hin : In o (orders db)).
  { apply last_Some in Hlast as [l' Hl']. rewrite Hl'.
    apply in_or_app. right. left. reflexivity. }
  destruct (ascending_In _ _ _ _ Hasc Hin) as (_ & n & Hn & Hpos).
  unfold order_number in Hn. exists n.
  unfold OrderSerializer.new_order_no. rewrite Hlast, Hn.
  repeat split; [ lia | apply int_format_02d ].
Qed.

Lemma next_number_is_successor_witness :
  let db := snd (serve Sample.sql (empty_store Sample.directory)
                   [Sample.create; Sample.create; Sample.create]) in
  exists n, Py.int "03" = Some n /\ 1 <= n
            /\ OrderSerializer.new_order_no db = Py.format_02d (n + 1)
            /\ Py.int (OrderSerializer.new_order_no db) = Some (n + 1).
Proof.
  cbv zeta.
  apply (next_number_is_successor Sample.sql Sample.directory
           [Sample.create; Sample.create; Sample.create]
           (Order.mk 3 "03" "pending" (Some 3) None None (Some (Sample.day + 1))
              (Some Sample.day) VNull None VNull None VNull None ∅)).
  vm_compute. reflexivity.
Defined.







(** X18. What a rejection leaves behind.  On a store reached from an
    empty one, a craftsman's reject of an assigned order is always
    answered 200.  The order is saved as 'rejected' with the craftsman
    it had recorded in [rejected_by] and no craftsman; it is then given
    to the first CRAFTSMAN of the directory, whoever rejected before,
    and stays rejected when a null under [NOT IN] is unknown or the
    directory has no CRAFTSMAN. *)
Theorem rejection_outcome (D : Deployment) (directory : list BusinessPartner.t)
    (rs : list Request) (user : User.t) (data : gmap string Value)
    (v : OrderActionSerializer.validated) (o : Order.t) :
  let db := snd (serve D (empty_store directory) rs) in
  OrderActionSerializer.run_validation data = Pass v ->
  OrderActionSerializer.action v = "reject" ->
  Orm.get (Orm.orders_by_order_no (OrderActionSerializer.order_no v) db) = Orm.Found o ->
  Order.status o = "assigned" ->
  let rejected :=
    Order.with_craftsman None
      (Order.with_rejected_by (Order.craftsman o) (Order.with_status "rejected" o)) in
  let first_craftsman :=
    head (List.filter (fun b => String.eqb (BusinessPartner.role b) "CRAFTSMAN")
            directory) in
  code (fst (CraftsmanOrderResponse.post D db user data)) = HTTP_200_OK
  /\ snd (CraftsmanOrderResponse.post D db user data)
     = match (if not_in_null_unknown D then None else first_craftsman) with
       | Some b =>
           Orm.save (Order.with_status "assigned"
                       (Order.with_craftsman (Some (BusinessPartner.id b)) rejected))
             (Orm.save rejected db)
       | None => Orm.save rejected db
       end.
Proof.
  intros db Hval Hact Hget Hst rejected first_craftsman.
  assert (Hw : well_numbered db) by (apply serve_well_numbered, empty_well_numbered).
  assert (Hdir : partners db = directory) by apply serve_partners.
  pose proof (reassignment_ignores_history D db _ o Hw Hget) as Hnext.
  cbv zeta in Hnext. fold rejected in Hnext. rewrite Hdir in Hnext.
  fold first_craftsman in Hnext.
  unfold CraftsmanOrderResponse.post. rewrite Hval, Hget, Hst, Hact.
  simpl String.eqb. cbn iota. fold rejected. rewrite Hnext.
  destruct (if not_in_null_unknown D then None else first_craftsman);
    split; reflexivity.
Qed.

Lemma rejection_outcome_witness :
  let db := snd (serve Sample.plain (empty_store Sample.directory)
                   (firstn 4 Sample.scenario)) in
  code (fst (CraftsmanOrderResponse.post Sample.plain db Sample.user_C1
               (Sample.on_order_001 "reject"))) = HTTP_200_OK.
Proof.
  cbv zeta.
  apply (rejection_outcome Sample.plain Sample.directory (firstn 4 Sample.scenario)
           Sample.user_C1 (Sample.on_order_001 "reject")
           (OrderActionSerializer.mkValidated "001" "reject")
           (Order.mk 1 "001" "assigned" (Some 3) (Some 1) None
              (Some (Sample.day + 1)) (Some Sample.day)
              (VStr EmptyString) (Some 11) (VStr EmptyString) (Some 12) VNull None ∅)).
  - vm_compute. reflexivity.
  - reflexivity.
  - vm_compute. reflexivity.
  - reflexivity.
Defined.

Lemma rejection_outcome_db (D : Deployment) (directory : list BusinessPartner.t)
    (rs : list Request) (user : User.t) (data : gmap string Value)
    (v : OrderActionSerializer.validated) (o : Order.t) :
  let db := snd (serve D (empty_store directory) rs) in
  OrderActionSerializer.run_validation data = Pass v ->
  OrderActionSerializer.action v = "reject" ->
  Orm.get (Orm.orders_by_order_no (OrderActionSerializer.order_no v) db) = Orm.Found o ->
  Order.status o = "assigned" ->
  not_in_null_unknown D = true ->
  snd (CraftsmanOrderResponse.post D db user data)
  = Orm.save (Order.with_craftsman None
                (Order.with_rejected_by (Order.craftsman o)
                   (Order.with_status "rejected" o))) db.
Proof.
  intros db Hval Hact Hget Hst Hnull.
  assert (Hw : well_numbered db) by (apply serve_well_numbered, empty_well_numbered).
  pose proof (reassignment_ignores_history D db _ o Hw Hget) as Hnext.
  cbv zeta in Hnext. rewrite Hnull in Hnext.
  unfold CraftsmanOrderResponse.post. rewrite Hval, Hget, Hst, Hact.
  simpl String.eqb. cbn iota. rewrite Hnext. reflexivity.
Qed.

(** X19. A rejection that finds no replacement shows in the list of
    rejected orders.  On a store reached from an empty one, where a
    null under [NOT IN] is unknown, after a craftsman's reject of an
    assigned order [RejectedOrdersView.get] lists the order's number
    with the directory entry of the craftsman who rejected it, and its
    total counts the listed rows. *)
Theorem rejected_order_is_listed (D : Deployment) (directory : list BusinessPartner.t)
    (rs : list Request) (user : User.t) (data : gmap string Value)
    (v : OrderActionSerializer.validated) (o : Order.t) :
  let db := snd (serve D (empty_store directory) rs) in
  not_in_null_unknown D = true ->
  OrderActionSerializer.run_validation data = Pass v ->
  OrderActionSerializer.action v = "reject" ->
  Orm.get (Orm.orders_by_order_no (OrderActionSerializer.order_no v) db) = Orm.Found o ->
  Order.status o = "assigned" ->
  let '(listed, total) :=
    RejectedOrdersView_get (snd (CraftsmanOrderResponse.post D db user data)) in
  (exists b, In b directory
             /\ Order.craftsman o = Some (BusinessPartner.id b)
             /\ In (Order.order_no o, Some b) listed)
  /\ total = Z.of_nat (List.length listed).
Proof.
  intros db Hnull Hval Hact Hget Hst.
  assert (Hok : store_ok db) by (apply serve_store_ok, empty_store_ok).
  assert (Hdir : partners db = directory) by apply serve_partners.
  pose proof (get_filter_In _ _ _ Hget) as Hin.
  pose proof (store_ok_In db o Hok Hin) as (_ & Hc & _ & Ha & _).
  destruct (Order.craftsman o) as [c |] eqn:Hcr; [ | exfalso; exact (Ha Hst eq_refl) ].
  pose proof (rejection_outcome_db D directory rs user data v o Hval Hact Hget Hst Hnull)
    as Hdb.
  cbv zeta in Hdb. fold db in Hdb. rewrite Hcr in Hdb.
  rewrite Hdb. unfold RejectedOrdersView_get.
  set (rejected := Order.with_craftsman None _).
  split; [ | reflexivity ].
  destruct (partner_by_pk_found (Orm.save rejected db) c (Hc c eq_refl)) as [b Hb].
  exists b.
  assert (Hbin : In b (partners db) /\ BusinessPartner.id b = c).
  { unfold CraftsmanOrderResponse.partner_by_pk in Hb.
    apply head_filter_In in Hb as Hb'. split; [ exact Hb' | ].
    assert (Hf : In b (List.filter (fun b => BusinessPartner.id b =? c)
                         (partners (Orm.save rejected db)))).
    { destruct (List.filter _ _); [ discriminate Hb | ].
      injection Hb as ->. left. reflexivity. }
    apply filter_In in Hf as [_ Hf]. apply Z.eqb_eq, Hf. }
  destruct Hbin as [Hbin Hbid]. rewrite Hdir in Hbin.
  split; [ exact Hbin | ]. split; [ congruence | ].
  apply in_map_iff. exists rejected. split.
  - subst rejected. cbv beta.
    cbn [Order.order_no Order.rejected_by Order.with_craftsman
         Order.with_rejected_by Order.with_status mbind option_bind].
    rewrite Hb. reflexivity.
  - unfold orders_with_status. apply filter_In. split; [ | reflexivity ].
    apply (save_In db o); [ exact Hin | reflexivity ].
Qed.

Lemma rejected_order_is_listed_witness :
  let db := snd (serve Sample.sql (empty_store Sample.directory)
                   (firstn 4 Sample.scenario)) in
  let '(listed, total) :=
    RejectedOrdersView_get
      (snd (CraftsmanOrderResponse.post Sample.sql db Sample.user_C1
              (Sample.on_order_001 "reject"))) in
  (exists b, In b Sample.directory /\ Some 1 = Some (BusinessPartner.id b)
             /\ In ("001", Some b) listed)
  /\ total = Z.of_nat (List.length listed).
Proof.
  cbv zeta.
  apply (rejected_order_is_listed Sample.sql Sample.directory (firstn 4 Sample.scenario)
           Sample.user_C1 (Sample.on_order_001 "reject")
           (OrderActionSerializer.mkValidated "001" "reject")
           (Order.mk 1 "001" "assigned" (Some 3) (Some 1) None
              (Some (Sample.day + 1)) (Some Sample.day)
              (VStr EmptyString) (Some 11) (VStr EmptyString) (Some 12) VNull None ∅)).
  - reflexivity.
  - vm_compute. reflexivity.
  - reflexivity.
  - vm_compute. reflexivity.
  - reflexivity.
Defined.
